(** * obd_ii2gr: Toyota 2GR diagnostics over OBD-II

    A shallow embedding of [obd_ii2gr.py]: the custom-PID decode table, the
    sampler that builds one snapshot per cycle, the CSV logger and the
    valve-timing monitor, followed by the properties of each.

    Python values are modelled as the interpreter has them: [int] as [Z],
    [float] as Rocq's primitive binary64 floats (the same IEEE 754 format and
    rounding as CPython's [float]), [str] as [string], and an exception as a
    [Raised] outcome that unwinds through every caller without a handler.
    The [obd] library, the wall clock and the file system are collaborators
    outside the module; they appear as an oracle record and as fields of an
    explicit machine state. *)

From Stdlib Require Import ZArith QArith List String Ascii Bool Lia.
From Stdlib Require Import PrimFloat FloatOps SpecFloat.
From stdpp Require Import strings gmap.
Import ListNotations.

Close Scope Q_scope.
Local Open Scope string_scope.
Local Open Scope Z_scope.

(* ===================================================================== *)
(** ** Python outcomes *)
(* ===================================================================== *)

(** The exceptions the module can meet.  [KeyboardInterrupt] stands for the
    [BaseException]s that are not [Exception]s: [except Exception] lets them
    through, a bare [except:] does not. *)
Inductive exn : Type :=
| NameError (name : string)
| TypeError
| ValueError
| OverflowError
| ZeroDivisionError
| AttributeError
| KeyError (key : string)
| ConnectionError (msg : string)
| LibraryError (msg : string)
| KeyboardInterrupt.

Definition is_Exception (e : exn) : bool :=
  match e with
  | KeyboardInterrupt => false
  | _ => true
  end.

Inductive result (A : Type) : Type :=
| Returned (a : A)
| Raised (e : exn).
Arguments Returned {A} a.
Arguments Raised {A} e.

Definition rbind {A B : Type} (r : result A) (k : A -> result B) : result B :=
  match r with
  | Returned a => k a
  | Raised e => Raised e
  end.

Declare Scope py_scope.
Delimit Scope py_scope with py.
Notation "x <- r ; k" := (rbind r (fun x => k))
  (at level 100, r at next level, right associativity) : py_scope.

(** Python values that can sit in a snapshot. *)
Inductive pyval : Type :=
| PyNone
| PyInt (z : Z)
| PyFloat (f : float)
| PyStr (s : string).

(* ===================================================================== *)
(** ** [int(s, 16)] and slicing *)
(* ===================================================================== *)

Definition code (c : ascii) : Z := Z.of_nat (nat_of_ascii c).

(** Characters that [int()] strips from both ends of a [str]: the ASCII
    blanks (tab to carriage return, and the space) and, of the code points
    from 128 to 255, the two that Unicode classes as white space.  The
    separators 28 to 31 are not stripped. *)
Definition is_space (c : ascii) : bool :=
  let n := code c in
  ((9 <=? n) && (n <=? 13)) || (n =? 32) || (n =? 133) || (n =? 160).

Definition hex_digit (c : ascii) : option Z :=
  let n := code c in
  if (48 <=? n) && (n <=? 57) then Some (n - 48)
  else if (97 <=? n) && (n <=? 102) then Some (n - 87)
  else if (65 <=? n) && (n <=? 70) then Some (n - 55)
  else None.

Definition is_char (n : Z) (c : ascii) : bool := code c =? n.

Fixpoint skip_space (s : list ascii) : list ascii :=
  match s with
  | c :: r => if is_space c then skip_space r else s
  | [] => []
  end.

(** The digit loop of [PyLong_FromString]: hexadecimal digits with single
    underscores between them.  Returns the value, the number of digits read
    and the unread rest; [None] on a doubled or trailing underscore. *)
Fixpoint scan_digits (s : list ascii) (prev_underscore : bool) (acc : Z) (n : nat)
  : option (Z * nat * list ascii) :=
  match s with
  | c :: r =>
      if is_char 95 c then
        if prev_underscore then None else scan_digits r true acc n
      else
        match hex_digit c with
        | Some d => scan_digits r false (16 * acc + d) (S n)
        | None => if prev_underscore then None else Some (acc, n, s)
        end
  | [] => if prev_underscore then None else Some (acc, n, [])
  end.

(** [int(s, 16)] on a [str]: blanks stripped, an optional sign, an optional
    [0x]/[0X] prefix (one underscore may follow it), at least one digit;
    [ValueError] otherwise. *)
Definition int16 (s : string) : result Z :=
  let s0 := skip_space (list_ascii_of_string s) in
  let '(neg, s1) :=
    match s0 with
    | c :: r => if is_char 43 c then (false, r)
                else if is_char 45 c then (true, r) else (false, s0)
    | [] => (false, s0)
    end in
  let s2 :=
    match s1 with
    | z :: x :: r =>
        if is_char 48 z && (is_char 120 x || is_char 88 x) then
          match r with
          | u :: r' => if is_char 95 u then r' else r
          | [] => r
          end
        else s1
    | _ => s1
    end in
  match s2 with
  | u :: _ => if is_char 95 u then Raised ValueError else
      match scan_digits s2 false 0 0 with
      | Some (v, S _, rest) =>
          match skip_space rest with
          | [] => Returned (if neg then - v else v)
          | _ :: _ => Raised ValueError
          end
      | _ => Raised ValueError
      end
  | [] => Raised ValueError
  end.

(** [s[i:j]] for constant, non-negative [i <= j]: the slice is clamped to the
    string, never an error. *)
Definition slice (i j : nat) (s : string) : string := substring i (j - i) s.

(* ===================================================================== *)
(** ** Arithmetic on Python numbers *)
(* ===================================================================== *)

(** [float(z)]: the nearest binary64 (ties to even), [OverflowError] when
    that is an infinity. *)
Definition float_of_int (z : Z) : result float :=
  let x := SF2Prim (binary_normalize prec emax z 0 false) in
  if is_infinity x then Raised OverflowError else Returned x.

(** The rational a finite float denotes. *)
Definition float_to_Q (x : float) : option Q :=
  match Prim2SF x with
  | S754_zero _ => Some (inject_Z 0)
  | S754_finite s m e =>
      let n := if s then Zneg m else Zpos m in
      Some (if 0 <=? e then inject_Z (n * 2 ^ e)
            else Qmake n (Z.to_pos (2 ^ (- e))))
  | S754_infinity _ | S754_nan => None
  end.

(** Exact comparison of a float with an integer, as [float.__lt__] and its
    siblings do it; [None] for a NaN, which compares false with everything. *)
Definition compare_float_int (x : float) (z : Z) : option comparison :=
  match Prim2SF x with
  | S754_nan => None
  | S754_infinity s => Some (if s then Lt else Gt)
  | S754_zero _ => Some (0 ?= z)
  | S754_finite s m e =>
      let n := if s then Zneg m else Zpos m in
      Some (if 0 <=? e then (n * 2 ^ e ?= z) else (n ?= z * 2 ^ (- e)))
  end.

(** [a - b] *)
Definition py_sub (a b : pyval) : result pyval :=
  match a, b with
  | PyInt x, PyInt y => Returned (PyInt (x - y))
  | PyFloat x, PyFloat y => Returned (PyFloat (x - y))
  | PyFloat x, PyInt y => (fy <- float_of_int y ; Returned (PyFloat (x - fy)))%py
  | PyInt x, PyFloat y => (fx <- float_of_int x ; Returned (PyFloat (fx - y)))%py
  | _, _ => Raised TypeError
  end.

(** [a / d] for a float divisor [d]. *)
Definition py_truediv_float (a : pyval) (d : float) : result pyval :=
  match a with
  | PyInt x =>
      (fx <- float_of_int x ;
       if (d =? 0)%float then Raised ZeroDivisionError
       else Returned (PyFloat (fx / d)))%py
  | PyFloat x =>
      if (d =? 0)%float then Raised ZeroDivisionError
      else Returned (PyFloat (x / d))
  | _ => Raised TypeError
  end.

(** [abs(a)] *)
Definition py_abs (a : pyval) : result pyval :=
  match a with
  | PyInt x => Returned (PyInt (Z.abs x))
  | PyFloat x => Returned (PyFloat (abs x))
  | _ => Raised TypeError
  end.

(** [a < b].  Floats compare as the hardware does (a NaN is below nothing),
    an [int] and a [float] compare exactly, strings compare by code point;
    every other pairing is a [TypeError]. *)
Definition py_lt (a b : pyval) : result bool :=
  match a, b with
  | PyInt x, PyInt y => Returned (x <? y)
  | PyFloat x, PyFloat y => Returned (x <? y)%float
  | PyFloat x, PyInt y =>
      Returned (match compare_float_int x y with Some Lt => true | _ => false end)
  | PyInt x, PyFloat y =>
      Returned (match compare_float_int y x with Some Gt => true | _ => false end)
  | PyStr x, PyStr y =>
      Returned (match String.compare x y with Lt => true | _ => false end)
  | _, _ => Raised TypeError
  end.

(** [a > b], which for these types is [b < a]. *)
Definition py_gt (a b : pyval) : result bool := py_lt b a.

(* ===================================================================== *)
(** ** The custom-PID table *)
(* ===================================================================== *)

Record pid_config : Type := mkPid {
  command : string;
  bytes : Z;
  decode : string -> result pyval
}.

(** [lambda data: (int(data[2:4], 16) / 128.0) - 50] *)
Definition decode_vvt_angle (data : string) : result pyval :=
  (n <- int16 (slice 2 4 data) ;
   q <- py_truediv_float (PyInt n) 128%float ;
   py_sub q (PyInt 50))%py.

(** [lambda data: int(data, 16)] *)
Definition decode_fuel_trim_cell (data : string) : result pyval :=
  (n <- int16 data ; Returned (PyInt n))%py.

(** [lambda data: (int(data[2:4], 16) - 128)] *)
Definition decode_af_correction (data : string) : result pyval :=
  (n <- int16 (slice 2 4 data) ; py_sub (PyInt n) (PyInt 128))%py.

Definition CUSTOM_PIDS : list (string * pid_config) :=
  [ ("VVT_ANGLE_BANK1", mkPid "221160" 4 decode_vvt_angle);
    ("VVT_ANGLE_BANK2", mkPid "221165" 4 decode_vvt_angle);
    ("FUEL_TRIM_CELL", mkPid "221150" 2 decode_fuel_trim_cell);
    ("AF_CORRECTION", mkPid "221154" 4 decode_af_correction) ].

Fixpoint assoc {V : Type} (k : string) (d : list (string * V)) : option V :=
  match d with
  | (k', v) :: r => if String.eqb k k' then Some v else assoc k r
  | [] => None
  end.

(** [CUSTOM_PIDS[name]["decode"](data)] *)
Definition custom_decode (name data : string) : result pyval :=
  match assoc name CUSTOM_PIDS with
  | Some cfg => decode cfg data
  | None => Raised (KeyError name)
  end.

(** The float arithmetic of the VVT decoder on one byte. *)
Definition vvt_arith (b : Z) : result pyval :=
  (q <- py_truediv_float (PyInt b) 128%float ; py_sub q (PyInt 50))%py.

(** Does the VVT arithmetic on [b] yield exactly the rational [b/128 - 50]? *)
Definition vvt_exact (b : Z) : bool :=
  match vvt_arith b with
  | Returned (PyFloat f) =>
      match float_to_Q f with
      | Some q => Qeq_bool q (Qmake b 128 - inject_Z 50)
      | None => false
      end
  | _ => false
  end.

(** The character that spells the hexadecimal digit [d]. *)
Definition hex_char (d : Z) : ascii :=
  ascii_of_nat (Z.to_nat (if d <? 10 then 48 + d else 87 + d)).

(** A four-character payload whose positions 2 and 3 spell the byte [b]. *)
Definition payload_of_byte (b : Z) : string :=
  String "6" (String "2" (String (hex_char (b / 16))
    (String (hex_char (b mod 16)) EmptyString))).

(* ===================================================================== *)
(** ** The collaborators: [obd], the clock, the console, the file system *)
(* ===================================================================== *)

(** The library's own commands the sampler asks for ([obd.commands.RPM], ...). *)
Inductive std_command : Type :=
| RPM | COOLANT_TEMP | THROTTLE_POS | SHORT_FUEL_TRIM_1 | LONG_FUEL_TRIM_1.

Definition std_name (c : std_command) : string :=
  match c with
  | RPM => "RPM"
  | COOLANT_TEMP => "COOLANT_TEMP"
  | THROTTLE_POS => "THROTTLE_POS"
  | SHORT_FUEL_TRIM_1 => "SHORT_FUEL_TRIM_1"
  | LONG_FUEL_TRIM_1 => "LONG_FUEL_TRIM_1"
  end.

(** [obd.OBDCommand(name, desc, command, bytes, decoder)] *)
Record OBDCommand : Type := mkCommand {
  cmd_name : string;
  cmd_desc : string;
  cmd_command : string;
  cmd_bytes : Z;
  cmd_decoder : string -> result pyval
}.

(** The value of a response to a library command, when there is one: a
    quantity with a unit.  [magnitude] is its number; [truth] is what
    [bool()] of the object answers, which is the object's own business. *)
Record quantity : Type := mkQuantity {
  magnitude : pyval;
  truth : result bool
}.

(** A connection object.  The answers of the vehicle are not the module's to
    decide: [query_standard n c] and [query_custom n cmd] give the outcome of
    [connection.query] when it is the [n]-th consultation of the outside
    world.  A response to a library command carries [None] or a quantity; a
    response to a custom command carries what its decoder made, or [None]. *)
Record handle : Type := mkHandle {
  is_connected : result bool;
  query_standard : nat -> std_command -> result (option quantity);
  query_custom : nat -> OBDCommand -> result pyval
}.

(** Everything outside the module. *)
Record world : Type := mkWorld {
  OBD : result handle;                              (* [obd.OBD()] *)
  add_command : OBDCommand -> result unit;          (* [obd.protocols.ECU.add_command] *)
  commands_getitem : string -> result OBDCommand;   (* [obd.commands[name]] *)
  strftime_now : nat -> string;                     (* [datetime.now().strftime(...)] *)
  time_time : nat -> float                          (* [time.time()] *)
}.

(** One console message per [print] of the module. *)
Inductive output : Type :=
| Connected
| ConnectionFailed (e : exn)
| Misalignment (angle_diff : pyval)
| StuckSolenoid
| MonitoringComplete (vvt_errors : Z).

(** A snapshot is a [dict]: keys in insertion order. *)
Definition snapshot : Type := list (string * pyval).

Definition keys (d : snapshot) : list string := map fst d.
Definition values (d : snapshot) : list pyval := map snd d.

(** A CSV file as its rows, a row as its cells. *)
Abbreviation csv_file := (list (list pyval)).

Record state : Type := mkState {
  ticks : nat;                      (* consultations of the outside world so far *)
  sent : list string;               (* commands handed to [connection.query] *)
  registered : list string;         (* commands handed to [add_command] *)
  console : list output;            (* what was printed *)
  slept : list Z;                   (* arguments of [time.sleep] *)
  files : gmap string csv_file      (* the file system *)
}.

Definition initial_state : state := mkState 0 [] [] [] [] ∅.

(* ===================================================================== *)
(** ** Statements: state and exceptions *)
(* ===================================================================== *)

Definition M (A : Type) : Type := state -> result A * state.

Definition ret {A : Type} (a : A) : M A := fun s => (Returned a, s).

Definition raise {A : Type} (e : exn) : M A := fun s => (Raised e, s).

Definition lift {A : Type} (r : result A) : M A := fun s => (r, s).

Definition bind {A B : Type} (m : M A) (k : A -> M B) : M B :=
  fun s =>
    match m s with
    | (Returned a, s') => k a s'
    | (Raised e, s') => (Raised e, s')
    end.

Declare Scope stmt_scope.
Delimit Scope stmt_scope with stmt.
Notation "x <- m ; k" := (bind m (fun x => k))
  (at level 100, m at next level, right associativity) : stmt_scope.
Notation "m ;; k" := (bind m (fun _ => k))
  (at level 100, right associativity) : stmt_scope.

(** [try: body  except <classes>: handler]; the effects of [body] up to the
    exception stay. *)
Definition try_except {A : Type} (body : M A) (catches : exn -> bool)
    (handler : exn -> M A) : M A :=
  fun s =>
    match body s with
    | (Raised e, s') => if catches e then handler e s' else (Raised e, s')
    | done => done
    end.

Definition print (o : output) : M unit :=
  fun s => (Returned tt,
            mkState (ticks s) (sent s) (registered s) (console s ++ [o])
                    (slept s) (files s)).

(** The names bound at module level when a method runs: the three imports
    of lines 1-3 ([import obd], [from datetime import datetime],
    [import csv]), the table and the class.  Builtins ([print], [abs],
    [open], [int], ...) are found without them; [os] and [time] are not
    builtins and nothing binds them. *)
Definition module_globals : list string :=
  ["obd"; "datetime"; "csv"; "CUSTOM_PIDS"; "Toyota2GRDiagnostics"].

(** The module with [import os] and [import time] added. *)
Definition globals_with_os_and_time : list string :=
  "os" :: "time" :: module_globals.

(** Reading a module-level name. *)
Definition load_global (G : list string) (name : string) : M unit :=
  if existsb (String.eqb name) G then ret tt else raise (NameError name).

(* ===================================================================== *)
(** ** [class Toyota2GRDiagnostics] *)
(* ===================================================================== *)

(** The object: its one attribute.  A connection object is truthy. *)
Record Toyota2GRDiagnostics : Type := mkDiag {
  connection : option handle
}.

Section Program.

(** The module-level names in force and the outside world. *)
Variable G : list string.
Variable W : world.

Local Open Scope stmt_scope.

(** One consultation of the outside world. *)
Definition consult {A : Type} (ask : nat -> result A) (log : list string) : M A :=
  fun s => (ask (ticks s),
            mkState (S (ticks s)) (sent s ++ log) (registered s) (console s)
                    (slept s) (files s)).

(** [def connect_obd(self)] *)
Definition connect_obd (self : Toyota2GRDiagnostics) : M Toyota2GRDiagnostics :=
  try_except
    (load_global G "obd" ;;
     h <- lift (OBD W) ;
     ok <- lift (is_connected h) ;
     if negb ok then raise (ConnectionError "Failed to connect to OBD-II")
     else (print Connected ;; ret (mkDiag (Some h))))
    is_Exception
    (fun e => print (ConnectionFailed e) ;; ret (mkDiag None)).

(** The body of the [for] loop of [register_custom_pids]. *)
Definition register_one (entry : string * pid_config) : M unit :=
  let '(pid_name, config) := entry in
  load_global G "obd" ;;
  let cmd := mkCommand pid_name ("Toyota " ++ pid_name) (command config)
                       (bytes config) (decode config) in
  load_global G "obd" ;;
  fun s => (add_command W cmd,
            mkState (ticks s) (sent s) (registered s ++ [pid_name])
                    (console s) (slept s) (files s)).

Fixpoint for_each {A : Type} (body : A -> M unit) (l : list A) : M unit :=
  match l with
  | [] => ret tt
  | a :: r => body a ;; for_each body r
  end.

(** [def register_custom_pids(self)] *)
Definition register_custom_pids (self : Toyota2GRDiagnostics) : M unit :=
  match connection self with
  | None => ret tt
  | Some _ =>
      load_global G "CUSTOM_PIDS" ;;
      for_each register_one CUSTOM_PIDS
  end.

(** [def __init__(self)] *)
Definition __init__ : M Toyota2GRDiagnostics :=
  let self := mkDiag None in
  self <- connect_obd self ;
  register_custom_pids self ;;
  ret self.

(** [def _get_standard_pid(self, cmd)]; called only with a connection. *)
Definition _get_standard_pid (h : handle) (cmd : std_command) : M pyval :=
  value <- consult (fun n => query_standard h n cmd) [std_name cmd] ;
  match value with
  | None => ret PyNone
  | Some q =>
      t <- lift (truth q) ;
      if t then ret (magnitude q) else ret PyNone
  end.

(** [def _get_custom_pid(self, pid_name)]; called only with a connection. *)
Definition _get_custom_pid (h : handle) (pid_name : string) : M pyval :=
  try_except
    (load_global G "obd" ;;
     cmd <- lift (commands_getitem W pid_name) ;
     consult (fun n => query_custom h n cmd) [cmd_name cmd])
    (fun _ => true)
    (fun _ => ret PyNone).

(** The argument [obd.commands.X] of a call. *)
Definition std (c : std_command) : M std_command :=
  load_global G "obd" ;; ret c.

(** [def get_2gr_specific_data(self)] *)
Definition get_2gr_specific_data (self : Toyota2GRDiagnostics) : M (option snapshot) :=
  match connection self with
  | None => ret None
  | Some h =>
      load_global G "datetime" ;;
      timestamp <- consult (fun n => Returned (strftime_now W n)) [] ;
      c <- std RPM ; rpm <- _get_standard_pid h c ;
      c <- std COOLANT_TEMP ; coolant_temp <- _get_standard_pid h c ;
      vvt_bank1 <- _get_custom_pid h "VVT_ANGLE_BANK1" ;
      vvt_bank2 <- _get_custom_pid h "VVT_ANGLE_BANK2" ;
      fuel_trim_cell <- _get_custom_pid h "FUEL_TRIM_CELL" ;
      af_correction <- _get_custom_pid h "AF_CORRECTION" ;
      c <- std THROTTLE_POS ; throttle_pos <- _get_standard_pid h c ;
      c <- std SHORT_FUEL_TRIM_1 ; short_term_ft <- _get_standard_pid h c ;
      c <- std LONG_FUEL_TRIM_1 ; long_term_ft <- _get_standard_pid h c ;
      ret (Some [ ("timestamp", PyStr timestamp);
                  ("rpm", rpm);
                  ("coolant_temp", coolant_temp);
                  ("vvt_bank1", vvt_bank1);
                  ("vvt_bank2", vvt_bank2);
                  ("fuel_trim_cell", fuel_trim_cell);
                  ("af_correction", af_correction);
                  ("throttle_pos", throttle_pos);
                  ("short_term_ft", short_term_ft);
                  ("long_term_ft", long_term_ft) ])
  end.

(** [os.path.isfile(filename)] *)
Definition isfile (filename : string) : M bool :=
  fun s => (Returned (match files s !! filename with Some _ => true | None => false end), s).

(** [open(filename, 'a', newline='')]: the file exists from here on. *)
Definition open_append (filename : string) : M unit :=
  fun s => (Returned tt,
            match files s !! filename with
            | Some _ => s
            | None => mkState (ticks s) (sent s) (registered s) (console s)
                              (slept s) (<[filename := []]> (files s))
            end).

(** One row written at the end of the file. *)
Definition write_row (filename : string) (row : list pyval) : M unit :=
  fun s => (Returned tt,
            mkState (ticks s) (sent s) (registered s) (console s) (slept s)
                    (<[filename := (default [] (files s !! filename) ++ [row])%list]> (files s))).

(** [csv.DictWriter(f, fieldnames).writerow(data)]: one cell per field
    name, the empty string for a field the row lacks. *)
Definition row_of (fieldnames : list string) (data : snapshot) : list pyval :=
  map (fun k => default (PyStr "") (assoc k data)) fieldnames.

(** [def log_to_csv(self, filename="2gr_log.csv")] *)
Definition log_to_csv (self : Toyota2GRDiagnostics) (filename : string) : M bool :=
  data <- get_2gr_specific_data self ;
  match data with
  | None | Some [] => ret false
  | Some data =>
      load_global G "os" ;;
      file_exists <- isfile filename ;
      open_append filename ;;
      load_global G "csv" ;;
      let fieldnames := keys data in
      (if negb file_exists then write_row filename (map PyStr fieldnames)
       else ret tt) ;;
      write_row filename (row_of fieldnames data) ;;
      ret true
  end.

(** [data[key]] *)
Definition getitem (data : snapshot) (key : string) : M pyval :=
  match assoc key data with
  | Some v => ret v
  | None => raise (KeyError key)
  end.

Definition is_not_None (v : pyval) : bool :=
  match v with PyNone => false | _ => true end.

(** First check of a monitoring cycle: the angle difference between the
    banks.  Returns the error counter. *)
Definition check_misalignment (data : snapshot) (vvt_errors : Z) : M Z :=
  b1 <- getitem data "vvt_bank1" ;
  both <- (if is_not_None b1
           then (b2 <- getitem data "vvt_bank2" ; ret (is_not_None b2))
           else ret false) ;
  if both : bool then
    b1 <- getitem data "vvt_bank1" ;
    b2 <- getitem data "vvt_bank2" ;
    d <- lift (py_sub b1 b2) ;
    angle_diff <- lift (py_abs d) ;
    over <- lift (py_gt angle_diff (PyFloat 5)) ;
    if over : bool
    then (print (Misalignment angle_diff) ;; ret (vvt_errors + 1))
    else ret vvt_errors
  else ret vvt_errors.

(** Second check of a monitoring cycle: a stuck solenoid on bank 1. *)
Definition check_stuck (data : snapshot) : M unit :=
  rpm <- getitem data "rpm" ;
  fast <- lift (py_gt rpm (PyInt 3000)) ;
  stuck <- (if fast : bool
            then (b1 <- getitem data "vvt_bank1" ;
                  a <- lift (py_abs b1) ;
                  lift (py_lt a (PyFloat 5)))
            else ret false) ;
  if stuck : bool then print StuckSolenoid else ret tt.

(** The two checks of one monitoring cycle, on the snapshot [data] with
    the counter at [vvt_errors]; returns the counter. *)
Definition check_vvt (data : snapshot) (vvt_errors : Z) : M Z :=
  vvt_errors <- check_misalignment data vvt_errors ;
  check_stuck data ;;
  ret vvt_errors.

(** [time.time()] and [time.sleep(seconds)] *)
Definition time_now : M pyval :=
  load_global G "time" ;;
  consult (fun n => Returned (PyFloat (time_time W n))) [].

Definition sleep (seconds : Z) : M unit :=
  load_global G "time" ;;
  fun s => (Returned tt,
            mkState (ticks s) (sent s) (registered s) (console s)
                    (slept s ++ [seconds]) (files s)).

(** The [while] loop of [monitor_vvt_synchronization], at most [fuel]
    tests of its condition; [None] when they did not suffice. *)
Fixpoint monitor_loop (self : Toyota2GRDiagnostics) (start_time duration : pyval)
    (fuel : nat) (vvt_errors : Z) : M (option Z) :=
  match fuel with
  | O => ret None
  | S fuel =>
      now <- time_now ;
      elapsed <- lift (py_sub now start_time) ;
      again <- lift (py_lt elapsed duration) ;
      if again : bool then
        data <- get_2gr_specific_data self ;
        match data with
        | None | Some [] => monitor_loop self start_time duration fuel vvt_errors
        | Some data =>
            vvt_errors <- check_vvt data vvt_errors ;
            sleep 1 ;;
            monitor_loop self start_time duration fuel vvt_errors
        end
      else ret (Some vvt_errors)
  end.

(** [def monitor_vvt_synchronization(self, duration=60)] *)
Definition monitor_vvt_synchronization (self : Toyota2GRDiagnostics)
    (duration : pyval) (fuel : nat) : M (option unit) :=
  start_time <- time_now ;
  r <- monitor_loop self start_time duration fuel 0 ;
  match r with
  | None => ret None
  | Some vvt_errors => print (MonitoringComplete vvt_errors) ;; ret (Some tt)
  end.

(** [while True: diag.log_to_csv(); time.sleep(5)]: it ends only by an
    exception; [None] when [fuel] rounds went by without one. *)
Fixpoint logging_loop (diag : Toyota2GRDiagnostics) (fuel : nat) : M (option unit) :=
  match fuel with
  | O => ret None
  | S fuel =>
      log_to_csv diag "2gr_log.csv" ;;
      sleep 5 ;;
      logging_loop diag fuel
  end.

(** The [if __name__ == "__main__":] block.  The process ends when this
    returns [Some tt] (exit status 0) or raises (a traceback and a
    non-zero status); [None] means it was still running after [fuel] loop
    rounds. *)
Definition main (fuel : nat) : M (option unit) :=
  load_global G "Toyota2GRDiagnostics" ;;
  diag <- __init__ ;
  match connection diag with
  | Some _ =>
      r <- monitor_vvt_synchronization diag (PyInt 60) fuel ;
      match r with
      | None => ret None
      | Some _ => logging_loop diag fuel
      end
  | None => ret (Some tt)
  end.

End Program.

Arguments consult {A} ask log _.

(* ===================================================================== *)
(** ** Reading the console *)
(* ===================================================================== *)

(** What running [m] from [s] printed. *)
Definition printed {A : Type} (m : M A) (s : state) : list output :=
  skipn (length (console s)) (console (snd (m s))).

Definition misalignment_flagged (out : list output) : bool :=
  existsb (fun o => match o with Misalignment _ => true | _ => false end) out.

Definition stuck_flagged (out : list output) : bool :=
  existsb (fun o => match o with StuckSolenoid => true | _ => false end) out.

(** A bank angle as the sampler stores it: absent, or the float a VVT
    decoder made. *)
Definition angle_reading (v : pyval) : Prop :=
  match v with
  | PyNone | PyFloat _ => True
  | PyInt _ | PyStr _ => False
  end.

(** The ten keys of a snapshot, in the order of the dict display. *)
Definition snapshot_keys : list string :=
  ["timestamp"; "rpm"; "coolant_temp"; "vvt_bank1"; "vvt_bank2";
   "fuel_trim_cell"; "af_correction"; "throttle_pos"; "short_term_ft";
   "long_term_ft"].

(** A snapshot with the given engine speed and bank angles, the other
    readings absent. *)
Definition snapshot_of (rpm vvt_bank1 vvt_bank2 : pyval) : snapshot :=
  [ ("timestamp", PyStr "2024-01-01 00:00:00");
    ("rpm", rpm);
    ("coolant_temp", PyNone);
    ("vvt_bank1", vvt_bank1);
    ("vvt_bank2", vvt_bank2);
    ("fuel_trim_cell", PyNone);
    ("af_correction", PyNone);
    ("throttle_pos", PyNone);
    ("short_term_ft", PyNone);
    ("long_term_ft", PyNone) ].

(* ===================================================================== *)
(** ** Sample worlds *)
(* ===================================================================== *)

(** A vehicle that answers every query: 3500 rpm-like quantities for the
    library's commands, and for a custom command what its decoder makes of
    the payload [6280]. *)
Definition live_handle : handle :=
  mkHandle (Returned true)
           (fun _ _ => Returned (Some (mkQuantity (PyFloat 3500) (Returned true))))
           (fun _ cmd => cmd_decoder cmd "6280").

(** A vehicle whose adapter fails on the first library command. *)
Definition faulty_handle : handle :=
  mkHandle (Returned true)
           (fun _ _ => Raised (LibraryError "serial port closed"))
           (fun _ cmd => cmd_decoder cmd "6280").

(** [obd.commands[name]] in a library that knows the four custom PIDs. *)
Definition custom_commands (name : string) : result OBDCommand :=
  match assoc name CUSTOM_PIDS with
  | Some config =>
      Returned (mkCommand name ("Toyota " ++ name) (command config)
                          (bytes config) (decode config))
  | None => Raised (KeyError name)
  end.

Definition world_with (connect : result handle) : world :=
  mkWorld connect (fun _ => Returned tt) custom_commands
          (fun _ => "2024-01-01 00:00:00") (fun n => SF2Prim (binary_normalize prec emax (Z.of_nat n) 0 false)).

Definition live_world : world := world_with (Returned live_handle).
Definition faulty_world : world := world_with (Returned faulty_handle).
Definition dead_world : world := world_with (Raised (LibraryError "no adapter found")).

(** A statement that neither prints nor touches a file. *)
Definition quiet {A : Type} (m : M A) : Prop :=
  forall s, files (snd (m s)) = files s /\ console (snd (m s)) = console s.

Definition live_diag : Toyota2GRDiagnostics := mkDiag (Some live_handle).
Definition faulty_diag : Toyota2GRDiagnostics := mkDiag (Some faulty_handle).
Definition disabled_diag : Toyota2GRDiagnostics := mkDiag None.

(** What [filename] holds after one logging call that finds [old] there
    and writes the snapshot [data]. *)
Definition logged (old : option csv_file) (data : snapshot) : csv_file :=
  (default [] old
   ++ (match old with Some _ => [] | None => [map PyStr (keys data)] end)
   ++ [row_of (keys data) data])%list.

(** The misalignment condition in the words of the contract: the absolute
    difference of the two angles, computed as Python computes it, exceeds
    the 5.0 degree threshold. *)
Definition exceeds_threshold (bank1 bank2 : pyval) : bool :=
  match py_sub bank1 bank2 with
  | Returned d =>
      match py_abs d with
      | Returned a =>
          match py_gt a (PyFloat 5) with
          | Returned over => over
          | Raised _ => false
          end
      | Raised _ => false
      end
  | Raised _ => false
  end.

(** The stuck-actuator condition in the words of the contract: the engine
    speed exceeds the 3000 rpm threshold and the absolute bank 1 angle is
    below the 5.0 degree threshold. *)
Definition stuck_condition (rpm bank1 : pyval) : bool :=
  match py_gt rpm (PyInt 3000) with
  | Returned true =>
      match py_abs bank1 with
      | Returned a =>
          match py_lt a (PyFloat 5) with
          | Returned near => near
          | Raised _ => false
          end
      | Raised _ => false
      end
  | _ => false
  end.

(** The ways [connect_obd] can fail to connect, with the exception its
    handler reports: [obd.OBD()] raises, [is_connected()] answers [False],
    or [is_connected()] raises. *)
Inductive connection_failure (W : world) : exn -> Prop :=
| open_raises (e : exn) :
    OBD W = Raised e -> is_Exception e = true -> connection_failure W e
| not_connected (h : handle) :
    OBD W = Returned h -> is_connected h = Returned false ->
    connection_failure W (ConnectionError "Failed to connect to OBD-II")
| status_raises (h : handle) (e : exn) :
    OBD W = Returned h -> is_connected h = Raised e -> is_Exception e = true ->
    connection_failure W e.

(** [s] after one more console message. *)
Definition with_output (s : state) (o : output) : state :=
  mkState (ticks s) (sent s) (registered s) (console s ++ [o]) (slept s) (files s).

(* ===================================================================== *)
(** ** Auxiliary definitions for the further properties *)
(* ===================================================================== *)

(** The positional value of a digit sequence in base 16. *)
Definition hex_value (ds : list Z) : Z := fold_left (fun a d => 16 * a + d) ds 0.

(** The integers [int(t, 16)] can return for a [t] of at most two
    characters: from [-15] (a minus sign and one digit) to [255]. *)
Definition slice_ints : list Z := map (fun k => Z.of_nat k - 15) (seq 0 271).

(** The angles a VVT decoder can return. *)
Definition vvt_angles : list float :=
  flat_map (fun n => match vvt_arith n with
                     | Returned (PyFloat f) => [f]
                     | _ => []
                     end) slice_ints.

(** Neither monitoring check holds on angles taken from [fs]. *)
Definition checks_silent_on (fs : list float) : bool :=
  forallb (fun a =>
             negb (abs a <? 5)%float
             && forallb (fun b => negb (exceeds_threshold (PyFloat a) (PyFloat b))) fs)
          fs.

(** The command object [register_custom_pids] builds for a table entry. *)
Definition table_command (entry : string * pid_config) : OBDCommand :=
  mkCommand (fst entry) ("Toyota " ++ fst entry) (command (snd entry))
            (bytes (snd entry)) (decode (snd entry)).

(** What [_get_custom_pid name] adds to the query log: the command the
    library has under [name], when it has one. *)
Definition custom_sent (W : world) (name : string) : list string :=
  match commands_getitem W name with
  | Returned cmd => [cmd_name cmd]
  | Raised _ => []
  end.

(** The snapshot key under which each library command is stored. *)
Definition std_key (c : std_command) : string :=
  match c with
  | RPM => "rpm"
  | COOLANT_TEMP => "coolant_temp"
  | THROTTLE_POS => "throttle_pos"
  | SHORT_FUEL_TRIM_1 => "short_term_ft"
  | LONG_FUEL_TRIM_1 => "long_term_ft"
  end.

(** The snapshot key and the custom PID stored under it. *)
Definition custom_keys : list (string * string) :=
  [ ("vvt_bank1", "VVT_ANGLE_BANK1");
    ("vvt_bank2", "VVT_ANGLE_BANK2");
    ("fuel_trim_cell", "FUEL_TRIM_CELL");
    ("af_correction", "AF_CORRECTION") ].

(** The number of misalignment messages in a console output. *)
Definition count_misalignment (out : list output) : Z :=
  Z.of_nat (length (List.filter (fun o => match o with Misalignment _ => true | _ => false end) out)).

(** A statement that only consults the outside world: the console, the
    files, the registrations and the sleeps stay, the query log only grows. *)
Definition polls_only {A : Type} (m : M A) : Prop :=
  forall s,
    files (snd (m s)) = files s /\ console (snd (m s)) = console s /\
    registered (snd (m s)) = registered s /\ slept (snd (m s)) = slept s /\
    exists l, sent (snd (m s)) = (sent s ++ l)%list.

(** What [_get_standard_pid] stores for a response value: the magnitude of
    a truthy quantity, [None] for a missing or falsy one. *)
Definition stored_reading (value : option quantity) : pyval :=
  match value with
  | Some q =>
      match truth q with
      | Returned true => magnitude q
      | _ => PyNone
      end
  | None => PyNone
  end.

(** A vehicle at standstill: every library command answers a zero quantity,
    which is falsy. *)
Definition idle_handle : handle :=
  mkHandle (Returned true)
           (fun _ _ => Returned (Some (mkQuantity (PyFloat 0) (Returned false))))
           (fun _ cmd => cmd_decoder cmd "6280").

(** A library in which no custom PID can be looked up. *)
Definition bare_world : world :=
  mkWorld (Returned live_handle) (fun _ => Returned tt)
          (fun name => Raised (KeyError name))
          (fun _ => "2024-01-01 00:00:00") (fun _ => 0%float).

(** A vehicle whose banks read 10 and 16 degrees, whatever the decoders. *)
Definition skewed_handle : handle :=
  mkHandle (Returned true)
           (fun _ _ => Returned (Some (mkQuantity (PyFloat 2000) (Returned true))))
           (fun _ cmd => Returned (PyFloat (if String.eqb (cmd_name cmd) "VVT_ANGLE_BANK1"
                                            then 10 else 16))).

Definition skewed_world : world := world_with (Returned skewed_handle).
(* ===================================================================== *)
(** ** Properties of the decode table *)
(* ===================================================================== *)

Section HexPayload.

Lemma hex_digit_range (c : ascii) (d : Z) :
  hex_digit c = Some d -> 0 <= d < 16.
Proof.
  unfold hex_digit. generalize (code c). intros n.
  destruct (Z.leb_spec 48 n), (Z.leb_spec n 57), (Z.leb_spec 97 n),
    (Z.leb_spec n 102), (Z.leb_spec 65 n), (Z.leb_spec n 70);
    simpl; intros [= <-]; lia.
Qed.

(** A hexadecimal digit is neither a blank, nor a sign, nor an underscore,
    nor the [x] of a base prefix. *)
Lemma hex_digit_plain (c : ascii) (d : Z) :
  hex_digit c = Some d ->
  is_space c = false /\ is_char 43 c = false /\ is_char 45 c = false /\
  is_char 95 c = false /\ is_char 120 c = false /\ is_char 88 c = false.
Proof.
  unfold hex_digit, is_space, is_char. generalize (code c). intros n.
  destruct (Z.leb_spec 48 n), (Z.leb_spec n 57), (Z.leb_spec 97 n),
    (Z.leb_spec n 102), (Z.leb_spec 65 n), (Z.leb_spec n 70);
    simpl; intros [= <-];
    repeat split;
    repeat match goal with
      | |- context [?a <=? ?b] => destruct (Z.leb_spec a b); simpl
      | |- context [?a =? ?b] => destruct (Z.eqb_spec a b); simpl
      end; try reflexivity; lia.
Qed.

(** [int(s, 16)] on exactly two hexadecimal digits is the byte they spell. *)
Lemma int16_two_hex (hi lo : ascii) (h l : Z) :
  hex_digit hi = Some h -> hex_digit lo = Some l ->
  int16 (String hi (String lo EmptyString)) = Returned (16 * h + l).
Proof.
  intros Hh Hl.
  destruct (hex_digit_plain _ _ Hh) as (Hs & Hp & Hm & Hu & _ & _).
  destruct (hex_digit_plain _ _ Hl) as (_ & _ & _ & Hu' & Hx & HX).
  unfold int16. cbn [list_ascii_of_string skip_space].
  rewrite Hs, Hp, Hm, Hx, HX, andb_false_r, Hu.
  cbn [scan_digits]. rewrite Hu, Hh, Hu', Hl.
  cbn [skip_space]. f_equal; lia.
Qed.

Lemma byte_range (h l : Z) :
  0 <= h < 16 -> 0 <= l < 16 -> 0 <= 16 * h + l <= 255.
Proof. lia. Qed.

End HexPayload.

Lemma vvt_exact_all_bytes :
  forallb vvt_exact (map Z.of_nat (seq 0 256)) = true.
Proof. vm_compute. reflexivity. Qed.

Lemma vvt_exact_byte (b : Z) : 0 <= b <= 255 -> vvt_exact b = true.
Proof.
  intros Hb.
  apply (proj1 (forallb_forall vvt_exact _) vvt_exact_all_bytes).
  apply in_map_iff. exists (Z.to_nat b). split; [lia|].
  apply in_seq. lia.
Qed.

Lemma hex_char_digit (d : Z) : 0 <= d < 16 -> hex_digit (hex_char d) = Some d.
Proof.
  intros Hd.
  assert (d = 0 \/ d = 1 \/ d = 2 \/ d = 3 \/ d = 4 \/ d = 5 \/ d = 6 \/ d = 7 \/
          d = 8 \/ d = 9 \/ d = 10 \/ d = 11 \/ d = 12 \/ d = 13 \/ d = 14 \/
          d = 15) as Hcase by lia.
  repeat (destruct Hcase as [-> | Hcase]; [reflexivity|]).
  subst d. reflexivity.
Qed.

Lemma payload_of_byte_slice (b : Z) :
  slice 2 4 (payload_of_byte b)
  = String (hex_char (b / 16)) (String (hex_char (b mod 16)) EmptyString).
Proof. reflexivity. Qed.

Lemma vvt_arith_float (b : Z) (fb : float) :
  float_of_int b = Returned fb ->
  vvt_arith b = Returned (PyFloat (fb / 128 - 50)%float).
Proof.
  intros Hfb. unfold vvt_arith, py_truediv_float. rewrite Hfb. reflexivity.
Qed.

Lemma vvt_arith_exact (b : Z) :
  0 <= b <= 255 ->
  exists (fb f : float) (q : Q),
    float_of_int b = Returned fb /\
    vvt_arith b = Returned (PyFloat f) /\
    f = (fb / 128 - 50)%float /\
    float_to_Q f = Some q /\
    Qeq q (Qminus (Qmake b 128) (inject_Z 50)).
Proof.
  intros Hb. pose proof (vvt_exact_byte b Hb) as E. unfold vvt_exact in E.
  destruct (float_of_int b) as [fb | e] eqn:Efb.
  - rewrite (vvt_arith_float b fb Efb) in E |- *.
    destruct (float_to_Q (fb / 128 - 50)%float) as [q |] eqn:Eq; [|discriminate].
    exists fb, (fb / 128 - 50)%float, q.
    split; [reflexivity|]. split; [reflexivity|]. split; [reflexivity|].
    split; [exact Eq|]. now apply Qeq_bool_iff.
  - unfold vvt_arith, py_truediv_float in E. rewrite Efb in E. discriminate.
Qed.

Lemma custom_decode_vvt (name data : string) :
  name = "VVT_ANGLE_BANK1" \/ name = "VVT_ANGLE_BANK2" ->
  custom_decode name data = (n <- int16 (slice 2 4 data) ; vvt_arith n)%py.
Proof. intros [-> | ->]; reflexivity. Qed.

(** C1: on a payload whose positions 2:4 are two hexadecimal digits spelling
    the byte [b], each VVT angle decoder returns the float [b/128.0 - 50];
    that float is exactly the rational [b/128 - 50] (no rounding occurs), and
    it lies between -50 and 49.2. *)
Theorem C1_vvt_angle_decode (name data : string) (hi lo : ascii) (h l : Z) :
  name = "VVT_ANGLE_BANK1" \/ name = "VVT_ANGLE_BANK2" ->
  slice 2 4 data = String hi (String lo EmptyString) ->
  hex_digit hi = Some h -> hex_digit lo = Some l ->
  0 <= 16 * h + l <= 255 /\
  exists (fb f : float) (q : Q),
    float_of_int (16 * h + l) = Returned fb /\
    custom_decode name data = Returned (PyFloat f) /\
    f = (fb / 128 - 50)%float /\
    float_to_Q f = Some q /\
    Qeq q (Qminus (Qmake (16 * h + l) 128) (inject_Z 50)) /\
    Qle (inject_Z (-50)) q /\ Qle q (Qmake 492 10).
Proof.
  intros Hname Hs Hh Hl.
  pose proof (hex_digit_range _ _ Hh) as Rh.
  pose proof (hex_digit_range _ _ Hl) as Rl.
  pose proof (byte_range h l Rh Rl) as Hb.
  split; [exact Hb|].
  destruct (vvt_arith_exact _ Hb) as (fb & f & q & Hfb & Ha & Hf & Hq & E).
  exists fb, f, q. repeat split; try assumption.
  - rewrite (custom_decode_vvt name data Hname), Hs, (int16_two_hex hi lo h l Hh Hl).
    exact Ha.
  - rewrite E. unfold Qle, Qminus, Qplus, Qopp, inject_Z. simpl. lia.
  - rewrite E. unfold Qle, Qminus, Qplus, Qopp, inject_Z. simpl. lia.
Qed.

Lemma C1_vvt_angle_decode_witness :
  0 <= 16 * 15 + 15 <= 255 /\
  exists (fb f : float) (q : Q),
    float_of_int (16 * 15 + 15) = Returned fb /\
    custom_decode "VVT_ANGLE_BANK1" "62ff" = Returned (PyFloat f) /\
    f = (fb / 128 - 50)%float /\
    float_to_Q f = Some q /\
    Qeq q (Qminus (Qmake (16 * 15 + 15) 128) (inject_Z 50)) /\
    Qle (inject_Z (-50)) q /\ Qle q (Qmake 492 10).
Proof.
  apply (C1_vvt_angle_decode "VVT_ANGLE_BANK1" "62ff" "f" "f" 15 15);
    [left; reflexivity | reflexivity | reflexivity | reflexivity].
Defined.

(** The bound of C1 is not tight: a decoded angle never exceeds
    [255/128 - 50 = -48.0078125], reached on [ff]; [-50] is reached on [00]. *)
Lemma vvt_angle_at_most (b : Z) (f : float) (q : Q) :
  0 <= b <= 255 ->
  vvt_arith b = Returned (PyFloat f) -> float_to_Q f = Some q ->
  Qle q (Qmake (-6145) 128).
Proof.
  intros Hb Ha Hq.
  destruct (vvt_arith_exact _ Hb) as (fb & f' & q' & _ & Ha' & _ & Hq' & E).
  rewrite Ha in Ha'. injection Ha' as <-. rewrite Hq in Hq'. injection Hq' as <-.
  rewrite E. unfold Qle, Qminus, Qplus, Qopp, inject_Z. simpl. lia.
Qed.

Example vvt_angle_extremes :
  custom_decode "VVT_ANGLE_BANK1" "6200" = Returned (PyFloat (-50)%float) /\
  custom_decode "VVT_ANGLE_BANK2" "62ff" = Returned (PyFloat (-48.0078125)%float).
Proof. split; vm_compute; reflexivity. Qed.

(** C7: on a payload whose positions 2:4 spell the byte [b], the AF
    correction decoder returns the integer [b - 128], which lies in
    [-128, 127]; and every integer of [-128, 127] is the decoding of some
    such payload. *)
Theorem C7_af_correction_decode :
  (forall (data : string) (hi lo : ascii) (h l : Z),
      slice 2 4 data = String hi (String lo EmptyString) ->
      hex_digit hi = Some h -> hex_digit lo = Some l ->
      0 <= 16 * h + l <= 255 /\
      custom_decode "AF_CORRECTION" data = Returned (PyInt (16 * h + l - 128)) /\
      -128 <= 16 * h + l - 128 <= 127) /\
  (forall v : Z, -128 <= v <= 127 ->
      exists (data : string) (hi lo : ascii) (h l : Z),
        slice 2 4 data = String hi (String lo EmptyString) /\
        hex_digit hi = Some h /\ hex_digit lo = Some l /\
        16 * h + l = v + 128 /\
        custom_decode "AF_CORRECTION" data = Returned (PyInt v)).
Proof.
  assert (forall (data : string) (hi lo : ascii) (h l : Z),
      slice 2 4 data = String hi (String lo EmptyString) ->
      hex_digit hi = Some h -> hex_digit lo = Some l ->
      custom_decode "AF_CORRECTION" data = Returned (PyInt (16 * h + l - 128)))
    as Hdec.
  { intros data hi lo h l Hs Hh Hl.
    change (custom_decode "AF_CORRECTION" data) with (decode_af_correction data).
    unfold decode_af_correction.
    rewrite Hs, (int16_two_hex hi lo h l Hh Hl). reflexivity. }
  split.
  - intros data hi lo h l Hs Hh Hl.
    pose proof (hex_digit_range _ _ Hh). pose proof (hex_digit_range _ _ Hl).
    repeat split; try lia. now apply (Hdec data hi lo).
  - intros v Hv. set (b := v + 128).
    assert (0 <= b / 16 < 16) as Rh
      by (split; [apply Z.div_pos | apply Z.div_lt_upper_bound]; lia).
    assert (0 <= b mod 16 < 16) as Rl by (apply Z.mod_pos_bound; lia).
    exists (payload_of_byte b), (hex_char (b / 16)), (hex_char (b mod 16)),
      (b / 16), (b mod 16).
    pose proof (hex_char_digit _ Rh) as Hh. pose proof (hex_char_digit _ Rl) as Hl.
    assert (16 * (b / 16) + b mod 16 = v + 128) as Hsum
      by (rewrite <- Z.div_mod by lia; reflexivity).
    split; [apply payload_of_byte_slice|].
    split; [exact Hh|]. split; [exact Hl|]. split; [exact Hsum|].
    rewrite (Hdec _ _ _ _ _ (payload_of_byte_slice b) Hh Hl), Hsum.
    do 2 f_equal; lia.
Qed.

Lemma C7_af_correction_decode_witness :
  custom_decode "AF_CORRECTION" "6280" = Returned (PyInt (16 * 8 + 0 - 128)) /\
  exists (data : string) (hi lo : ascii) (h l : Z),
    slice 2 4 data = String hi (String lo EmptyString) /\
    hex_digit hi = Some h /\ hex_digit lo = Some l /\
    16 * h + l = -128 + 128 /\
    custom_decode "AF_CORRECTION" data = Returned (PyInt (-128)).
Proof.
  split.
  - apply (proj1 C7_af_correction_decode "6280" "8"%char "0"%char 8 0); reflexivity.
  - apply (proj2 C7_af_correction_decode (-128)). lia.
Defined.

(* ===================================================================== *)
(** ** Properties of the sampler *)
(* ===================================================================== *)

Section Statements.

Context {A B : Type}.

Lemma quiet_ret (a : A) : quiet (ret a).
Proof. intros s. split; reflexivity. Qed.

Lemma quiet_raise (e : exn) : quiet (@raise A e).
Proof. intros s. split; reflexivity. Qed.

Lemma quiet_lift (r : result A) : quiet (lift r).
Proof. intros s. split; reflexivity. Qed.

Lemma quiet_consult (ask : nat -> result A) (log : list string) :
  quiet (consult ask log).
Proof. intros s. split; reflexivity. Qed.

Lemma quiet_bind (m : M A) (k : A -> M B) :
  quiet m -> (forall a, quiet (k a)) -> quiet (bind m k).
Proof.
  intros Hm Hk s. unfold bind. specialize (Hm s).
  destruct (m s) as [[a | e] s1]; simpl in Hm.
  - destruct (Hk a s1) as [Hf Hc]. rewrite Hf, Hc. exact Hm.
  - exact Hm.
Qed.

Lemma quiet_try_except (body : M A) (catches : exn -> bool) (handler : exn -> M A) :
  quiet body -> (forall e, quiet (handler e)) -> quiet (try_except body catches handler).
Proof.
  intros Hb Hh s. unfold try_except. specialize (Hb s).
  destruct (body s) as [[a | e] s1]; simpl in Hb; [exact Hb|].
  destruct (catches e); [|exact Hb].
  destruct (Hh e s1) as [Hf Hc]. rewrite Hf, Hc. exact Hb.
Qed.

End Statements.

Lemma quiet_load_global (G : list string) (name : string) : quiet (load_global G name).
Proof.
  unfold load_global. destruct (existsb _ G); [apply quiet_ret | apply quiet_raise].
Qed.

Create HintDb quiet.

#[local] Hint Resolve quiet_ret quiet_raise quiet_lift quiet_consult
  quiet_load_global : quiet.

Ltac quiet_steps :=
  repeat first
    [ solve [ auto with quiet ]
    | apply quiet_bind; [| intros ? ]
    | apply quiet_try_except; [| intros ? ] ].

Lemma quiet_get_standard_pid (h : handle) (cmd : std_command) :
  quiet (_get_standard_pid h cmd).
Proof.
  unfold _get_standard_pid. apply quiet_bind; [apply quiet_consult|].
  intros [q|]; [|apply quiet_ret].
  apply quiet_bind; [apply quiet_lift|]. intros []; apply quiet_ret.
Qed.

Lemma quiet_get_custom_pid (G : list string) (W : world) (h : handle) (name : string) :
  quiet (_get_custom_pid G W h name).
Proof. unfold _get_custom_pid. quiet_steps. Qed.

#[local] Hint Resolve quiet_get_standard_pid quiet_get_custom_pid : quiet.

(** Sampling prints nothing and leaves every file alone. *)
Lemma quiet_get_2gr_specific_data (G : list string) (W : world)
    (self : Toyota2GRDiagnostics) :
  quiet (get_2gr_specific_data G W self).
Proof.
  unfold get_2gr_specific_data, std. destruct (connection self); quiet_steps.
Qed.

(** The bare [except:] of [_get_custom_pid] swallows everything: the call
    always returns. *)
Lemma get_custom_pid_never_raises (G : list string) (W : world) (h : handle)
    (name : string) (s : state) :
  exists v s', _get_custom_pid G W h name s = (Returned v, s').
Proof.
  unfold _get_custom_pid, try_except.
  destruct (bind _ _ s) as [[v | e] s1]; eauto.
Qed.

(** Whatever goes wrong on the custom path comes out as [None]. *)
Lemma get_custom_pid_failure_is_None (G : list string) (W : world) (h : handle)
    (name : string) (s : state) (e : exn) :
  commands_getitem W name = Raised e \/
  (exists cmd, commands_getitem W name = Returned cmd /\
               query_custom h (ticks s) cmd = Raised e) ->
  fst (_get_custom_pid G W h name s) = Returned PyNone.
Proof.
  intros H. unfold _get_custom_pid, try_except, bind, load_global, lift, consult.
  destruct (existsb _ G); simpl; [|reflexivity].
  destruct H as [-> | (cmd & -> & H)]; simpl; [reflexivity|].
  rewrite H. reflexivity.
Qed.

(** An absent response to a library command becomes [None]. *)
Lemma get_standard_pid_absent (h : handle) (cmd : std_command) (s : state) :
  query_standard h (ticks s) cmd = Returned None ->
  fst (_get_standard_pid h cmd s) = Returned PyNone.
Proof.
  intros H. unfold _get_standard_pid, bind, consult. simpl. rewrite H. reflexivity.
Qed.

(** An exception of [connection.query] on a library command is not caught:
    [_get_standard_pid] has no handler. *)
Lemma get_standard_pid_raises (h : handle) (cmd : std_command) (s : state) (e : exn) :
  query_standard h (ticks s) cmd = Raised e ->
  fst (_get_standard_pid h cmd s) = Raised e.
Proof.
  intros H. unfold _get_standard_pid, bind, consult. simpl. rewrite H. reflexivity.
Qed.

(** ... and so it leaves the sampler. *)
Lemma sample_raises_on_first_query (G : list string) (W : world) (h : handle)
    (s : state) (e : exn) :
  In "datetime" G -> In "obd" G ->
  query_standard h (S (ticks s)) RPM = Raised e ->
  fst (get_2gr_specific_data G W (mkDiag (Some h)) s) = Raised e.
Proof.
  intros Hd Ho H.
  assert (forall n, In n G -> existsb (String.eqb n) G = true) as Hin.
  { intros n Hn. apply existsb_exists. exists n. split; [exact Hn|].
    apply String.eqb_refl. }
  unfold get_2gr_specific_data, std, bind, load_global. cbn [connection].
  rewrite (Hin _ Hd), (Hin _ Ho).
  unfold _get_standard_pid, bind, consult, ret. cbn [ticks fst snd].
  rewrite H. reflexivity.
Qed.

(** C4: a failing input.  The adapter raises on the first library command
    ([RPM]); [_get_standard_pid] has no [try], so the exception leaves
    [get_2gr_specific_data] instead of becoming an absent value. *)
Theorem C4_standard_query_exception_escapes :
  fst (get_2gr_specific_data module_globals faulty_world faulty_diag initial_state)
  = Raised (LibraryError "serial port closed").
Proof. vm_compute. reflexivity. Qed.

(** C5: without a connection, sampling returns [None] at once: no
    exception, and the state (the query log included) is untouched. *)
Theorem C5_absent_connection_sample (G : list string) (W : world)
    (self : Toyota2GRDiagnostics) (s : state) :
  connection self = None ->
  get_2gr_specific_data G W self s = (Returned None, s) /\
  sent (snd (get_2gr_specific_data G W self s)) = sent s.
Proof.
  intros H. unfold get_2gr_specific_data. rewrite H. split; reflexivity.
Qed.

Lemma C5_absent_connection_sample_witness :
  get_2gr_specific_data module_globals dead_world disabled_diag initial_state
    = (Returned None, initial_state) /\
  sent (snd (get_2gr_specific_data module_globals dead_world disabled_diag initial_state))
    = sent initial_state.
Proof.
  apply (C5_absent_connection_sample module_globals dead_world disabled_diag initial_state).
  reflexivity.
Defined.

(** Unfolds one layer of sequencing in [H] after another, following the
    branch in which every statement so far returned. *)
Ltac run_in H :=
  unfold bind in H;
  repeat match type of H with
    | context [match ?x with _ => _ end] => destruct x eqn:?; try discriminate H
    end.

(** A snapshot, when one is made, is the dict display of the source: ten
    entries, the timestamp a string. *)
Lemma sample_shape (G : list string) (W : world) (self : Toyota2GRDiagnostics)
    (s s1 : state) (data : snapshot) :
  get_2gr_specific_data G W self s = (Returned (Some data), s1) ->
  exists (timestamp : string)
         (rpm coolant_temp vvt_bank1 vvt_bank2 fuel_trim_cell af_correction
          throttle_pos short_term_ft long_term_ft : pyval),
    data = [ ("timestamp", PyStr timestamp);
             ("rpm", rpm);
             ("coolant_temp", coolant_temp);
             ("vvt_bank1", vvt_bank1);
             ("vvt_bank2", vvt_bank2);
             ("fuel_trim_cell", fuel_trim_cell);
             ("af_correction", af_correction);
             ("throttle_pos", throttle_pos);
             ("short_term_ft", short_term_ft);
             ("long_term_ft", long_term_ft) ].
Proof.
  intros H. unfold get_2gr_specific_data in H.
  destruct (connection self) as [h|]; [|discriminate H].
  run_in H. unfold ret in H. injection H as <- _.
  repeat eexists.
Qed.

(** Sampling returns whenever the connection is there, the two imports it
    needs are bound, and no library command fails. *)
Lemma sample_returns (G : list string) (W : world) (h : handle) (s : state) :
  In "datetime" G -> In "obd" G ->
  (forall n c, exists v, query_standard h n c = Returned v /\
                         forall q, v = Some q -> exists t, truth q = Returned t) ->
  exists data s1,
    get_2gr_specific_data G W (mkDiag (Some h)) s = (Returned (Some data), s1).
Proof.
  intros Hd Ho Hq.
  assert (forall n, In n G -> existsb (String.eqb n) G = true) as Hin.
  { intros n Hn. apply existsb_exists. exists n. split; [exact Hn|].
    apply String.eqb_refl. }
  assert (forall c s0, exists v s0', _get_standard_pid h c s0 = (Returned v, s0')) as Hstd.
  { intros c s0. unfold _get_standard_pid, bind, consult, lift, ret.
    destruct (Hq (ticks s0) c) as (v & -> & Hv).
    destruct v as [q|]; [|eauto].
    destruct (Hv q eq_refl) as (t & ->). destruct t; eauto. }
  unfold get_2gr_specific_data, std, load_global. cbn [connection].
  rewrite (Hin _ Hd), (Hin _ Ho).
  unfold consult.
  repeat first
    [ progress cbv beta iota delta [bind ret]
    | match goal with
      | |- context [_get_standard_pid h ?c ?s0] =>
          let v := fresh "v" in let s' := fresh "s" in let E := fresh "E" in
          destruct (Hstd c s0) as (v & s' & E); rewrite E
      | |- context [_get_custom_pid G W h ?n ?s0] =>
          let v := fresh "v" in let s' := fresh "s" in let E := fresh "E" in
          destruct (get_custom_pid_never_raises G W h n s0) as (v & s' & E); rewrite E
      end ].
  eauto.
Qed.

(* ===================================================================== *)
(** ** Properties of the CSV logger *)
(* ===================================================================== *)

Lemma bound_name (G : list string) (name : string) :
  In name G -> existsb (String.eqb name) G = true.
Proof.
  intros H. apply existsb_exists. exists name. split; [exact H|].
  apply String.eqb_refl.
Qed.

Lemma logged_grows (old : option csv_file) (data : snapshot) :
  old <> Some (logged old data).
Proof.
  unfold logged. destruct old as [c|]; [|discriminate].
  intros [= H]. apply (f_equal (@length _)) in H.
  rewrite !length_app in H. simpl in H. lia.
Qed.

(** [log_to_csv] once the sampler has returned a snapshot: the two module
    names it reads decide the rest. *)
Lemma log_to_csv_after_sample (G : list string) (W : world)
    (self : Toyota2GRDiagnostics) (filename : string) (s s1 : state)
    (data : snapshot) :
  get_2gr_specific_data G W self s = (Returned (Some data), s1) ->
  log_to_csv G W self filename s =
    if negb (existsb (String.eqb "os") G) then (Raised (NameError "os"), s1)
    else if negb (existsb (String.eqb "csv") G)
      then (Raised (NameError "csv"), snd (open_append filename s1))
      else (Returned true,
            mkState (ticks s1) (sent s1) (registered s1) (console s1) (slept s1)
                    (<[filename := logged (files s1 !! filename) data]> (files s1))).
Proof.
  intros Hs. destruct (sample_shape _ _ _ _ _ _ Hs)
    as (ts & v1 & v2 & v3 & v4 & v5 & v6 & v7 & v8 & v9 & ->).
  unfold log_to_csv. unfold bind at 1. rewrite Hs.
  unfold load_global.
  destruct (existsb (String.eqb "os") G); [|reflexivity].
  destruct (existsb (String.eqb "csv") G); cbn [negb].
  - unfold bind, isfile, open_append, write_row, ret, logged.
    destruct (files s1 !! filename) as [c|] eqn:Ef; cbn [negb fst snd files default].
    + rewrite Ef. reflexivity.
    + rewrite lookup_insert_eq. cbn [default].
      rewrite lookup_insert_eq. cbn [default].
      rewrite !insert_insert_eq. reflexivity.
  - unfold bind, isfile, open_append, raise, ret. cbn [fst snd].
    destruct (files s1 !! filename) eqn:Ef; rewrite ?Ef; reflexivity.
Qed.

Lemma log_to_csv_no_snapshot (G : list string) (W : world)
    (self : Toyota2GRDiagnostics) (filename : string) (s s1 : state) :
  get_2gr_specific_data G W self s = (Returned None, s1) ->
  log_to_csv G W self filename s = (Returned false, s1).
Proof. intros H. unfold log_to_csv, bind. rewrite H. reflexivity. Qed.

Lemma log_to_csv_sample_raised (G : list string) (W : world)
    (self : Toyota2GRDiagnostics) (filename : string) (s s1 : state) (e : exn) :
  get_2gr_specific_data G W self s = (Raised e, s1) ->
  log_to_csv G W self filename s = (Raised e, s1).
Proof. intros H. unfold log_to_csv, bind. rewrite H. reflexivity. Qed.

(** The module as written never binds [os]: with a snapshot in hand,
    [log_to_csv] stops at [os.path.isfile] and no file is touched. *)
Lemma log_to_csv_unbound_os (W : world) (self : Toyota2GRDiagnostics)
    (filename : string) (s s1 : state) (data : snapshot) :
  get_2gr_specific_data module_globals W self s = (Returned (Some data), s1) ->
  log_to_csv module_globals W self filename s = (Raised (NameError "os"), s1) /\
  files s1 = files s.
Proof.
  intros Hs. split.
  - rewrite (log_to_csv_after_sample _ _ _ filename _ _ _ Hs). reflexivity.
  - pose proof (quiet_get_2gr_specific_data module_globals W self s) as [Hf _].
    rewrite Hs in Hf. exact Hf.
Qed.

(** With [os] and [csv] bound the logger does what its text says: the
    first call on a missing file leaves a header and one row, the next call
    adds one row and no header. *)
Lemma log_to_csv_with_imports (G : list string) (W : world)
    (self : Toyota2GRDiagnostics) (filename : string) (s s1 : state)
    (data : snapshot) :
  In "os" G -> In "csv" G ->
  get_2gr_specific_data G W self s = (Returned (Some data), s1) ->
  fst (log_to_csv G W self filename s) = Returned true /\
  files (snd (log_to_csv G W self filename s)) !! filename
  = Some (match files s !! filename with
          | None => [map PyStr snapshot_keys; values data]
          | Some rows => rows ++ [values data]
          end)%list.
Proof.
  intros Hos Hcsv Hs.
  pose proof (quiet_get_2gr_specific_data G W self s) as [Hf _].
  rewrite Hs in Hf. cbn [snd] in Hf.
  rewrite (log_to_csv_after_sample _ _ _ filename _ _ _ Hs).
  rewrite (bound_name _ _ Hos), (bound_name _ _ Hcsv). cbn [negb fst snd files].
  split; [reflexivity|].
  rewrite lookup_insert_eq, Hf. f_equal.
  destruct (sample_shape _ _ _ _ _ _ Hs)
    as (ts & v1 & v2 & v3 & v4 & v5 & v6 & v7 & v8 & v9 & ->).
  unfold logged. destruct (files s !! filename); reflexivity.
Qed.

(** C6: a failing input.  With a live connection and no file yet, the
    first [log_to_csv] call raises [NameError] at [os.path.isfile]: the
    module never imports [os].  No file is created, no header and no row
    are written. *)
Theorem C6_first_call_raises_NameError :
  fst (log_to_csv module_globals live_world live_diag "2gr_log.csv" initial_state)
    = Raised (NameError "os") /\
  files (snd (log_to_csv module_globals live_world live_diag "2gr_log.csv"
                         initial_state)) !! "2gr_log.csv" = None.
Proof. split; vm_compute; reflexivity. Qed.

(** C9: a snapshot, whenever the sampler makes one, has exactly the ten
    keys of the dict display in that order; and whenever [log_to_csv]
    writes, the header cells are those keys and the row holds the
    snapshot's values in key order. *)
Theorem C9_snapshot_keys_and_csv_fields (G : list string) (W : world)
    (self : Toyota2GRDiagnostics) (s : state) :
  (forall (data : snapshot) (s1 : state),
      get_2gr_specific_data G W self s = (Returned (Some data), s1) ->
      keys data = snapshot_keys) /\
  (forall (filename : string) (s2 : state),
      log_to_csv G W self filename s = (Returned true, s2) ->
      exists (data : snapshot) (s1 : state),
        get_2gr_specific_data G W self s = (Returned (Some data), s1) /\
        keys data = snapshot_keys /\
        row_of (keys data) data = values data /\
        files s2 !! filename
        = Some (match files s !! filename with
                | None => [map PyStr (keys data); values data]
                | Some rows => rows ++ [values data]
                end)%list).
Proof.
  split.
  - intros data s1 Hs.
    destruct (sample_shape _ _ _ _ _ _ Hs)
      as (ts & v1 & v2 & v3 & v4 & v5 & v6 & v7 & v8 & v9 & ->).
    reflexivity.
  - intros filename s2 Hlog.
    destruct (get_2gr_specific_data G W self s) as [[[data|]|e] s1] eqn:Hs.
    + pose proof (quiet_get_2gr_specific_data G W self s) as [Hf _].
      rewrite Hs in Hf. cbn [snd] in Hf.
      rewrite (log_to_csv_after_sample _ _ _ filename _ _ _ Hs) in Hlog.
      destruct (existsb (String.eqb "os") G); [|discriminate Hlog].
      destruct (existsb (String.eqb "csv") G); [|discriminate Hlog].
      cbn [negb] in Hlog. injection Hlog as <-.
      exists data, s1. split; [reflexivity|].
      destruct (sample_shape _ _ _ _ _ _ Hs)
        as (ts & v1 & v2 & v3 & v4 & v5 & v6 & v7 & v8 & v9 & ->).
      split; [reflexivity|]. split; [reflexivity|].
      cbn [files]. rewrite lookup_insert_eq, Hf. f_equal.
      unfold logged. destruct (files s !! filename); reflexivity.
    + rewrite (log_to_csv_no_snapshot _ _ _ filename _ _ Hs) in Hlog.
      discriminate Hlog.
    + rewrite (log_to_csv_sample_raised _ _ _ filename _ _ _ Hs) in Hlog.
      discriminate Hlog.
Qed.

Lemma C9_snapshot_keys_and_csv_fields_witness :
  exists (data : snapshot) (s1 : state),
    get_2gr_specific_data globals_with_os_and_time live_world live_diag initial_state
      = (Returned (Some data), s1) /\
    keys data = snapshot_keys /\
    row_of (keys data) data = values data /\
    files (snd (log_to_csv globals_with_os_and_time live_world live_diag
                           "2gr_log.csv" initial_state)) !! "2gr_log.csv"
    = Some [map PyStr (keys data); values data].
Proof.
  apply (proj2 (C9_snapshot_keys_and_csv_fields globals_with_os_and_time
                  live_world live_diag initial_state) "2gr_log.csv").
  vm_compute. reflexivity.
Defined.

(** For every module namespace: [log_to_csv] returns [True] exactly when
    the sampler gave a snapshot and the file gained that snapshot's row
    (after the header, on a new file); without a connection it returns
    [False] and the whole state, the file system included, is as before. *)
Lemma log_to_csv_result (G : list string) (W : world)
    (self : Toyota2GRDiagnostics) (filename : string) (s : state) :
  (fst (log_to_csv G W self filename s) = Returned true <->
   exists (data : snapshot) (s1 : state),
     get_2gr_specific_data G W self s = (Returned (Some data), s1) /\
     files (snd (log_to_csv G W self filename s)) !! filename
     = Some (logged (files s !! filename) data)) /\
  (connection self = None ->
   log_to_csv G W self filename s = (Returned false, s)).
Proof.
  split.
  - destruct (get_2gr_specific_data G W self s) as [[[data|]|e] s1] eqn:Hs.
    + pose proof (quiet_get_2gr_specific_data G W self s) as [Hf _].
      rewrite Hs in Hf. cbn [snd] in Hf.
      rewrite (log_to_csv_after_sample _ _ _ filename _ _ _ Hs).
      destruct (existsb (String.eqb "os") G); cbn [negb].
      * destruct (existsb (String.eqb "csv") G); cbn [negb fst snd].
        -- split; [|reflexivity]. intros _. exists data, s1.
           split; [reflexivity|]. cbn [files].
           rewrite lookup_insert_eq, Hf. reflexivity.
        -- split; [discriminate|]. intros (d & s' & [= <- <-] & H).
           exfalso. unfold open_append in H. cbn [snd] in H.
           destruct (files s1 !! filename) as [c|] eqn:Ef.
           ++ rewrite Ef, <- Hf, Ef in H. exact (logged_grows _ _ H).
           ++ cbn [files] in H. rewrite lookup_insert_eq, <- Hf, Ef in H.
              discriminate H.
      * cbn [fst snd]. split; [discriminate|].
        intros (d & s' & [= <- <-] & H). exfalso.
        rewrite Hf in H. exact (logged_grows _ _ H).
    + rewrite (log_to_csv_no_snapshot _ _ _ filename _ _ Hs).
      split; [discriminate|]. intros (d & s' & [=] & _).
    + rewrite (log_to_csv_sample_raised _ _ _ filename _ _ _ Hs).
      split; [discriminate|]. intros (d & s' & [=] & _).
  - intros Hc. unfold log_to_csv, bind, get_2gr_specific_data.
    rewrite Hc. reflexivity.
Qed.

Lemma log_to_csv_result_instances :
  log_to_csv module_globals dead_world disabled_diag "2gr_log.csv" initial_state
    = (Returned false, initial_state) /\
  exists (data : snapshot) (s1 : state),
    get_2gr_specific_data globals_with_os_and_time live_world live_diag initial_state
      = (Returned (Some data), s1) /\
    files (snd (log_to_csv globals_with_os_and_time live_world live_diag
                           "2gr_log.csv" initial_state)) !! "2gr_log.csv"
    = Some (logged (files initial_state !! "2gr_log.csv") data).
Proof.
  split.
  - apply (proj2 (log_to_csv_result module_globals dead_world disabled_diag
                    "2gr_log.csv" initial_state)).
    reflexivity.
  - apply (proj1 (proj1 (log_to_csv_result globals_with_os_and_time live_world
                           live_diag "2gr_log.csv" initial_state))).
    vm_compute. reflexivity.
Defined.

(** C10: a failing input.  With a live connection the sampler returns a
    snapshot, yet [log_to_csv] neither writes a row nor returns [True]: the
    module never imports [os], so the call raises [NameError] at
    [os.path.isfile] and the file system is as before. *)
Theorem C10_snapshot_obtained_but_no_row_and_no_True :
  (exists (data : snapshot) (s1 : state),
     get_2gr_specific_data module_globals live_world live_diag initial_state
     = (Returned (Some data), s1)) /\
  fst (log_to_csv module_globals live_world live_diag "2gr_log.csv" initial_state)
    = Raised (NameError "os") /\
  files (snd (log_to_csv module_globals live_world live_diag "2gr_log.csv"
                         initial_state)) = files initial_state.
Proof.
  split; [|split].
  - eexists. eexists. vm_compute. reflexivity.
  - vm_compute. reflexivity.
  - vm_compute. reflexivity.
Qed.

(* ===================================================================== *)
(** ** Properties of the threshold checks *)
(* ===================================================================== *)

Lemma printed_app {A : Type} (m : M A) (s : state) (l : list output) :
  console (snd (m s)) = (console s ++ l)%list -> printed m s = l.
Proof. intros H. unfold printed. rewrite H. apply drop_app_length. Qed.

Lemma misalignment_flagged_app (l1 l2 : list output) :
  misalignment_flagged (l1 ++ l2) = misalignment_flagged l1 || misalignment_flagged l2.
Proof. apply existsb_app. Qed.

Lemma stuck_flagged_app (l1 l2 : list output) :
  stuck_flagged (l1 ++ l2) = stuck_flagged l1 || stuck_flagged l2.
Proof. apply existsb_app. Qed.

(** The first check, when both angles are there: it prints the
    misalignment message exactly under [exceeds_threshold], and then counts
    one more error. *)
Lemma check_misalignment_present (data : snapshot) (vvt_errors : Z) (s : state)
    (v1 v2 : pyval) :
  assoc "vvt_bank1" data = Some v1 -> assoc "vvt_bank2" data = Some v2 ->
  v1 <> PyNone -> v2 <> PyNone ->
  exists (r : result Z) (l : list output) (s' : state),
    check_misalignment data vvt_errors s = (r, s') /\
    console s' = (console s ++ l)%list /\
    misalignment_flagged l = exceeds_threshold v1 v2 /\
    stuck_flagged l = false /\
    (forall n, r = Returned n ->
               n = vvt_errors + (if exceeds_threshold v1 v2 then 1 else 0)).
Proof.
  intros H1 H2 N1 N2.
  unfold check_misalignment, exceeds_threshold, bind, getitem, lift, ret, print.
  rewrite H1, H2.
  destruct v1 as [|z1|f1|t1]; [contradiction| | |];
    (destruct v2 as [|z2|f2|t2]; [contradiction| | |]); cbn [is_not_None];
    destruct (py_sub _ _) as [d|e];
    try (exists (Raised e), [], s; rewrite app_nil_r;
         repeat split; try reflexivity; discriminate);
    (destruct (py_abs d) as [a|e];
     [| exists (Raised e), [], s; rewrite app_nil_r;
        repeat split; try reflexivity; discriminate]);
    (destruct (py_gt a (PyFloat 5)) as [[|]|e];
     [ eexists _, [Misalignment a], _; repeat split; intros n [= <-]; reflexivity
     | exists (Returned vvt_errors), [], s; rewrite app_nil_r;
       repeat split; intros n [= <-]; lia
     | exists (Raised e), [], s; rewrite app_nil_r;
       repeat split; try reflexivity; discriminate ]).
Qed.

(** The first check on angle readings (absent or float) always returns. *)
Lemma check_misalignment_returns (data : snapshot) (vvt_errors : Z) (s : state)
    (v1 v2 : pyval) :
  assoc "vvt_bank1" data = Some v1 -> assoc "vvt_bank2" data = Some v2 ->
  angle_reading v1 -> angle_reading v2 ->
  exists (n : Z) (l : list output) (s' : state),
    check_misalignment data vvt_errors s = (Returned n, s') /\
    console s' = (console s ++ l)%list /\
    stuck_flagged l = false.
Proof.
  intros H1 H2 A1 A2.
  unfold check_misalignment, bind, getitem, lift, ret, print.
  rewrite H1, H2.
  destruct v1 as [|z1|f1|t1]; try contradiction;
    destruct v2 as [|z2|f2|t2]; try contradiction; cbn [is_not_None];
    try (exists vvt_errors, [], s; rewrite app_nil_r; repeat split; reflexivity).
  cbn [py_sub py_abs py_gt py_lt].
  destruct (5 <? abs (f1 - f2))%float.
  - eexists _, [Misalignment _], _. repeat split; reflexivity.
  - exists vvt_errors, [], s. rewrite app_nil_r. repeat split; reflexivity.
Qed.

(** The second check never prints the misalignment message. *)
Lemma check_stuck_console (data : snapshot) (s : state) :
  exists (l : list output),
    console (snd (check_stuck data s)) = (console s ++ l)%list /\
    misalignment_flagged l = false /\
    (stuck_flagged l = true ->
     exists rpm v1, assoc "rpm" data = Some rpm /\
                    assoc "vvt_bank1" data = Some v1 /\
                    stuck_condition rpm v1 = true).
Proof.
  unfold check_stuck, stuck_condition, bind, getitem, lift, ret, raise, print.
  destruct (assoc "rpm" data) as [rpm|];
    [| exists []; rewrite app_nil_r; repeat split; discriminate].
  destruct (py_gt rpm (PyInt 3000)) as [[|]|e] eqn:Eg;
    try (exists []; rewrite app_nil_r; repeat split; discriminate).
  destruct (assoc "vvt_bank1" data) as [v1|];
    [| exists []; rewrite app_nil_r; repeat split; discriminate].
  destruct (py_abs v1) as [a|e] eqn:Ea;
    [| exists []; rewrite app_nil_r; repeat split; discriminate].
  destruct (py_lt a (PyFloat 5)) as [[|]|e] eqn:El;
    try (exists []; rewrite app_nil_r; repeat split; discriminate).
  exists [StuckSolenoid]. repeat split. intros _.
  exists rpm, v1. rewrite Eg, Ea, El. repeat split.
Qed.

(** The second check prints its message exactly under [stuck_condition]. *)
Lemma check_stuck_flag (data : snapshot) (s : state) (rpm v1 : pyval) :
  assoc "rpm" data = Some rpm -> assoc "vvt_bank1" data = Some v1 ->
  exists (l : list output),
    console (snd (check_stuck data s)) = (console s ++ l)%list /\
    stuck_flagged l = stuck_condition rpm v1.
Proof.
  intros Hr H1.
  unfold check_stuck, stuck_condition, bind, getitem, lift, ret, raise, print.
  rewrite Hr.
  destruct (py_gt rpm (PyInt 3000)) as [[|]|e];
    try (exists []; rewrite app_nil_r; split; reflexivity).
  rewrite H1.
  destruct (py_abs v1) as [a|e];
    [| exists []; rewrite app_nil_r; split; reflexivity].
  destruct (py_lt a (PyFloat 5)) as [[|]|e];
    try (exists []; rewrite app_nil_r; split; reflexivity).
  exists [StuckSolenoid]. split; reflexivity.
Qed.



(** The two readings of the contract: a difference of 4.0 does not flag, a
    difference of 6.0 does. *)
Example misalignment_examples :
  misalignment_flagged
    (printed (check_vvt (snapshot_of (PyFloat 2000) (PyFloat 10) (PyFloat 14)) 0)
             initial_state) = false /\
  misalignment_flagged
    (printed (check_vvt (snapshot_of (PyFloat 2000) (PyFloat 10) (PyFloat 16)) 0)
             initial_state) = true /\
  check_vvt (snapshot_of (PyFloat 2000) (PyFloat 10) (PyFloat 16)) 0 initial_state
    = (Returned 1,
       mkState 0 [] [] [Misalignment (PyFloat 6)] [] ∅).
Proof. repeat split; vm_compute; reflexivity. Qed.



(** The two readings of the contract: 3500 rpm with bank 1 at 2.0 flags,
    2000 rpm with bank 1 at 2.0 does not. *)
Example stuck_examples :
  stuck_flagged
    (printed (check_vvt (snapshot_of (PyFloat 3500) (PyFloat 2) PyNone) 0)
             initial_state) = true /\
  stuck_flagged
    (printed (check_vvt (snapshot_of (PyFloat 2000) (PyFloat 2) PyNone) 0)
             initial_state) = false.
Proof. split; vm_compute; reflexivity. Qed.

(** The second check has no guard for an absent reading, unlike the first:
    with the engine speed absent, or with bank 1 absent above 3000 rpm, the
    cycle ends in a [TypeError] (and prints no stuck-solenoid message). *)
Example stuck_check_on_absent_readings :
  fst (check_vvt (snapshot_of PyNone (PyFloat 2) PyNone) 0 initial_state)
    = Raised TypeError /\
  fst (check_vvt (snapshot_of (PyFloat 3500) PyNone PyNone) 0 initial_state)
    = Raised TypeError.
Proof. split; vm_compute; reflexivity. Qed.

(* ===================================================================== *)
(** ** Connection failures and the end of the process *)
(* ===================================================================== *)

(** A connection failure is caught, reported on the console, and leaves
    the object without a connection. *)
Lemma connect_obd_failure (G : list string) (W : world)
    (self : Toyota2GRDiagnostics) (s : state) (e : exn) :
  In "obd" G -> connection_failure W e ->
  connect_obd G W self s = (Returned (mkDiag None), with_output s (ConnectionFailed e)).
Proof.
  intros Ho Hf.
  unfold connect_obd, try_except, bind, load_global, lift, raise, print, ret.
  rewrite (bound_name _ _ Ho).
  destruct Hf as [e He Hx | h Hh Hc | h e Hh Hc Hx]; rewrite ?He, ?Hh, ?Hc;
    cbn [negb is_Exception]; rewrite ?Hx; reflexivity.
Qed.

(** Without a connection, registration, sampling and logging do nothing
    and return [None], [None] and [False]. *)
Lemma disabled_operations (G : list string) (W : world)
    (self : Toyota2GRDiagnostics) (filename : string) (s : state) :
  connection self = None ->
  register_custom_pids G W self s = (Returned tt, s) /\
  get_2gr_specific_data G W self s = (Returned None, s) /\
  log_to_csv G W self filename s = (Returned false, s).
Proof.
  intros H.
  unfold log_to_csv, bind, register_custom_pids, get_2gr_specific_data.
  rewrite H. repeat split.
Qed.

(** After a connection failure the constructor returns a disabled object
    and the main block ends normally: nothing is queried, registered or
    written. *)
Lemma main_after_connection_failure (G : list string) (W : world) (fuel : nat)
    (s : state) (e : exn) :
  In "obd" G -> In "Toyota2GRDiagnostics" G -> connection_failure W e ->
  __init__ G W s = (Returned (mkDiag None), with_output s (ConnectionFailed e)) /\
  main G W fuel s = (Returned (Some tt), with_output s (ConnectionFailed e)).
Proof.
  intros Ho Hc Hf.
  assert (__init__ G W s
          = (Returned (mkDiag None), with_output s (ConnectionFailed e))) as Hi.
  { unfold __init__. unfold bind at 1.
    rewrite (connect_obd_failure G W _ s e Ho Hf). reflexivity. }
  split; [exact Hi|].
  unfold main, load_global. rewrite (bound_name _ _ Hc).
  unfold bind at 1. unfold ret at 1. unfold bind at 1. rewrite Hi. reflexivity.
Qed.

(** With a connection, the module as written cannot get past its first
    use of [time]: the main block ends in a [NameError]. *)
Lemma main_with_connection_raises (W : world) (h : handle) (fuel : nat) (s : state) :
  OBD W = Returned h -> is_connected h = Returned true ->
  (forall cmd, add_command W cmd = Returned tt) ->
  fst (main module_globals W fuel s) = Raised (NameError "time").
Proof.
  intros Hh Hc Ha.
  unfold main, __init__, connect_obd, register_custom_pids, try_except, bind,
    load_global, lift, print, ret, raise.
  cbn [existsb String.eqb Ascii.eqb Bool.eqb orb module_globals].
  rewrite Hh, Hc. cbn [negb connection CUSTOM_PIDS for_each register_one].
  unfold bind, load_global, ret.
  cbn [existsb String.eqb Ascii.eqb Bool.eqb orb module_globals].
  rewrite !Ha. cbn [connection].
  unfold monitor_vvt_synchronization, time_now, bind, load_global, raise.
  cbn [existsb String.eqb Ascii.eqb Bool.eqb orb module_globals fst].
  reflexivity.
Qed.

(** C8: failing inputs.  With a live connection the main block of the
    module as written ends in an uncaught [NameError] (the process exits
    with a traceback), and so does a direct [log_to_csv] call; and with the
    two imports added, an exception of [connection.query] on a library
    command still ends the process. *)
Theorem C8_errors_reach_the_top_level :
  (forall fuel : nat,
     fst (main module_globals live_world fuel initial_state)
     = Raised (NameError "time")) /\
  fst (log_to_csv module_globals live_world live_diag "2gr_log.csv" initial_state)
    = Raised (NameError "os") /\
  (forall fuel : nat,
     fst (main globals_with_os_and_time faulty_world (S fuel) initial_state)
     = Raised (LibraryError "serial port closed")).
Proof.
  split; [|split].
  - intros fuel. vm_compute. reflexivity.
  - vm_compute. reflexivity.
  - intros fuel. vm_compute. reflexivity.
Qed.

(** The disabled state on a world without an adapter. *)
Example disabled_after_failure :
  main module_globals dead_world 5 initial_state
  = (Returned (Some tt),
     with_output initial_state (ConnectionFailed (LibraryError "no adapter found"))).
Proof. vm_compute. reflexivity. Qed.

(* ===================================================================== *)
(** ** Further properties of the decoders *)
(* ===================================================================== *)

Lemma skip_space_length (s : list ascii) :
  (length (skip_space s) <= length s)%nat.
Proof.
  induction s as [|c r IH]; cbn [skip_space]; [lia|].
  destruct (is_space c); cbn [length]; lia.
Qed.

(** The digit loop can only grow its accumulator, by less than one power
    of 16 per character read. *)
Lemma scan_digits_bound (s : list ascii) :
  forall (pu : bool) (acc : Z) (k : nat) (v : Z) (k' : nat) (rest : list ascii),
    0 <= acc ->
    scan_digits s pu acc k = Some (v, k', rest) ->
    acc <= v < (acc + 1) * 16 ^ Z.of_nat (length s).
Proof.
  induction s as [|c r IH]; intros pu acc k v k' rest Hacc H; cbn [scan_digits] in H.
  - destruct pu; [discriminate|]. injection H as <- _ _. cbn [length]. lia.
  - assert (0 < 16 ^ Z.of_nat (length r)) as Hpow by (apply Z.pow_pos_nonneg; lia).
    replace (Z.of_nat (length (c :: r))) with (Z.succ (Z.of_nat (length r)))
      by (cbn [length]; lia).
    rewrite Z.pow_succ_r by lia.
    destruct (is_char 95 c).
    + destruct pu; [discriminate|].
      specialize (IH _ _ _ _ _ _ Hacc H). nia.
    + destruct (hex_digit c) as [d|] eqn:Hd.
      * pose proof (hex_digit_range _ _ Hd) as Rd.
        assert (0 <= 16 * acc + d) as Hacc' by lia.
        specialize (IH _ _ _ _ _ _ Hacc' H). nia.
      * destruct pu; [discriminate|]. injection H as <- _ _. nia.
Qed.

(** [int()] strips a tab or a space around the digits, not a separator
    such as code point 28. *)
Example int16_blanks :
  int16 (String (ascii_of_nat 9) "5") = Returned 5 /\
  int16 "5 " = Returned 5 /\
  int16 (String (ascii_of_nat 28) "5") = Raised ValueError.
Proof. repeat split; vm_compute; reflexivity. Qed.

(** [int(s, 16)] fails in one way only. *)
Lemma int16_raises_only_ValueError (s : string) (e : exn) :
  int16 s = Raised e -> e = ValueError.
Proof.
  unfold int16.
  repeat match goal with
    | |- context [match ?x with _ => _ end] => destruct x
    end; intros [= <-]; reflexivity.
Qed.

Lemma length_list_ascii_of_string (s : string) :
  length (list_ascii_of_string s) = String.length s.
Proof. induction s as [|c r IH]; cbn; [reflexivity | now rewrite IH]. Qed.

(** The last stage of [int(s, 16)]: the digits after sign and prefix. *)
Lemma int16_digits_bound (neg : bool) (s2 : list ascii) (n : Z) :
  match s2 with
  | u :: _ =>
      if is_char 95 u then Raised ValueError
      else match scan_digits s2 false 0 0 with
           | Some (v, S _, rest) =>
               match skip_space rest with
               | [] => Returned (if neg then - v else v)
               | _ :: _ => Raised ValueError
               end
           | _ => Raised ValueError
           end
  | [] => Raised ValueError
  end = Returned n ->
  exists v : Z, 0 <= v < 16 ^ Z.of_nat (length s2) /\ n = if neg then - v else v.
Proof.
  intros H. destruct s2 as [|u t]; [discriminate H|].
  destruct (is_char 95 u); [discriminate H|].
  destruct (scan_digits (u :: t) false 0 0) as [[[v k] rest]|] eqn:Hscan;
    [|discriminate H].
  destruct k; [discriminate H|].
  destruct (skip_space rest); [|discriminate H].
  injection H as <-. exists v. split; [|reflexivity].
  pose proof (scan_digits_bound _ _ _ _ _ _ _ (Z.le_refl 0) Hscan). lia.
Qed.

(** On at most two characters [int(s, 16)] returns between [-15] (a minus
    sign and one digit) and [255] (two digits). *)
Lemma int16_short_bound (s : string) (n : Z) :
  (String.length s <= 2)%nat -> int16 s = Returned n -> -15 <= n <= 255.
Proof.
  intros Hlen H. unfold int16 in H.
  pose proof (skip_space_length (list_ascii_of_string s)) as Hs0.
  rewrite length_list_ascii_of_string in Hs0.
  destruct (skip_space (list_ascii_of_string s)) as [|c r]; [discriminate H|].
  destruct r as [|x [|y t]]; cbn [length] in Hs0; [| |lia].
  - destruct (is_char 43 c); [|destruct (is_char 45 c)]; cbv beta iota zeta in H;
      first [ discriminate H
            | apply (int16_digits_bound false [c]) in H ];
      destruct H as (v & Hv & ->); cbn in Hv; lia.
  - destruct (is_char 43 c); [|destruct (is_char 45 c)]; cbv beta iota zeta in H;
      try (destruct (is_char 48 c && (is_char 120 x || is_char 88 x)));
      first [ discriminate H
            | apply (int16_digits_bound false [x]) in H
            | apply (int16_digits_bound true [x]) in H
            | apply (int16_digits_bound false [c; x]) in H ];
      destruct H as (v & Hv & ->); cbn in Hv; lia.
Qed.

Lemma slice_2_4_length (data : string) : (String.length (slice 2 4 data) <= 2)%nat.
Proof.
  unfold slice. destruct data as [|a [|b [|c [|d t]]]]; cbn; try lia.
  destruct t; cbn; lia.
Qed.

Lemma in_slice_ints (n : Z) : -15 <= n <= 255 -> In n slice_ints.
Proof.
  intros Hn. unfold slice_ints. apply in_map_iff.
  exists (Z.to_nat (n + 15)). split; [lia|]. apply in_seq. lia.
Qed.

Lemma vvt_exact_slice_ints : forallb vvt_exact slice_ints = true.
Proof. vm_compute. reflexivity. Qed.

Lemma checks_silent_on_vvt_angles : checks_silent_on vvt_angles = true.
Proof. vm_compute. reflexivity. Qed.

(** What a VVT decoder returns comes from an integer of [slice_ints]. *)
Lemma decode_vvt_angle_returned (data : string) (f : float) :
  decode_vvt_angle data = Returned (PyFloat f) ->
  exists n : Z, int16 (slice 2 4 data) = Returned n /\ -15 <= n <= 255 /\
                vvt_arith n = Returned (PyFloat f) /\ In f vvt_angles.
Proof.
  intros H. change (decode_vvt_angle data)
    with (n <- int16 (slice 2 4 data) ; vvt_arith n)%py in H.
  destruct (int16 (slice 2 4 data)) as [n|e] eqn:Hn; [|discriminate H].
  cbn [rbind] in H.
  pose proof (int16_short_bound _ _ (slice_2_4_length data) Hn) as Rn.
  exists n. repeat split; try lia; try exact H.
  unfold vvt_angles. apply in_flat_map. exists n.
  split; [apply in_slice_ints; exact Rn|]. rewrite H. left. reflexivity.
Qed.

(** X1: on every payload a VVT decoder either raises [ValueError] or
    returns a finite float that is exactly [n/128 - 50] for the integer [n]
    spelled at positions 2:4, with [-15 <= n <= 255]; so every decoded
    angle lies in [-50.1171875, -48.0078125]. *)
Theorem vvt_decoder_on_any_payload (data : string) :
  decode_vvt_angle data = Raised ValueError \/
  exists (n : Z) (f : float) (q : Q),
    int16 (slice 2 4 data) = Returned n /\ -15 <= n <= 255 /\
    decode_vvt_angle data = Returned (PyFloat f) /\
    float_to_Q f = Some q /\
    Qeq q (Qminus (Qmake n 128) (inject_Z 50)) /\
    Qle (Qmake (-6415) 128) q /\ Qle q (Qmake (-6145) 128).
Proof.
  change (decode_vvt_angle data)
    with (n <- int16 (slice 2 4 data) ; vvt_arith n)%py.
  destruct (int16 (slice 2 4 data)) as [n|e] eqn:Hn; cbn [rbind].
  - right.
    pose proof (int16_short_bound _ _ (slice_2_4_length data) Hn) as Rn.
    pose proof (proj1 (forallb_forall vvt_exact _) vvt_exact_slice_ints n
                  (in_slice_ints n Rn)) as E.
    unfold vvt_exact in E.
    destruct (vvt_arith n) as [[| |f|]|]; try discriminate E.
    destruct (float_to_Q f) as [q|] eqn:Hq; [|discriminate E].
    apply Qeq_bool_iff in E.
    exists n, f, q.
    split; [reflexivity|]. split; [exact Rn|]. split; [reflexivity|].
    split; [exact Hq|]. split; [exact E|].
    split; rewrite E; unfold Qle, Qminus, Qplus, Qopp, inject_Z; simpl; lia.
  - left. rewrite (int16_raises_only_ValueError _ _ Hn). reflexivity.
Qed.

(** X2: on every payload the AF correction decoder either raises
    [ValueError] or returns the integer [n - 128] for the integer [n]
    spelled at positions 2:4, which lies in [-143, 127]. *)
Theorem af_decoder_on_any_payload (data : string) :
  decode_af_correction data = Raised ValueError \/
  exists n : Z,
    int16 (slice 2 4 data) = Returned n /\
    decode_af_correction data = Returned (PyInt (n - 128)) /\
    -143 <= n - 128 <= 127.
Proof.
  unfold decode_af_correction.
  destruct (int16 (slice 2 4 data)) as [n|e] eqn:Hn; cbn [rbind py_sub].
  - right. exists n.
    pose proof (int16_short_bound _ _ (slice_2_4_length data) Hn).
    repeat split; lia.
  - left. rewrite (int16_raises_only_ValueError _ _ Hn). reflexivity.
Qed.

(** X3: a payload of fewer than three characters has nothing at positions
    2:4, and the three slicing decoders raise [ValueError] on it; so does
    the fuel trim cell decoder on the empty payload. *)
Theorem decoders_on_short_payload (data : string) :
  (String.length data <= 2)%nat ->
  custom_decode "VVT_ANGLE_BANK1" data = Raised ValueError /\
  custom_decode "VVT_ANGLE_BANK2" data = Raised ValueError /\
  custom_decode "AF_CORRECTION" data = Raised ValueError /\
  custom_decode "FUEL_TRIM_CELL" "" = Raised ValueError.
Proof.
  intros H.
  destruct data as [|a [|b [|c t]]]; cbn [String.length] in H; try lia;
    repeat split; reflexivity.
Qed.

Lemma decoders_on_short_payload_witness :
  custom_decode "VVT_ANGLE_BANK1" "62" = Raised ValueError /\
  custom_decode "VVT_ANGLE_BANK2" "62" = Raised ValueError /\
  custom_decode "AF_CORRECTION" "62" = Raised ValueError /\
  custom_decode "FUEL_TRIM_CELL" "" = Raised ValueError.
Proof. apply (decoders_on_short_payload "62"). cbn. lia. Defined.

(** The digit loop on hexadecimal digits only reads them all. *)
Lemma scan_digits_all_hex (cs : list ascii) (ds : list Z) :
  Forall2 (fun c d => hex_digit c = Some d) cs ds ->
  forall (acc : Z) (k : nat),
    scan_digits cs false acc k
    = Some (fold_left (fun a d => 16 * a + d) ds acc, (k + length cs)%nat, []).
Proof.
  induction 1 as [|c d cs ds Hc _ IH]; intros acc k; cbn [scan_digits fold_left length].
  - rewrite Nat.add_0_r. reflexivity.
  - destruct (hex_digit_plain _ _ Hc) as (_ & _ & _ & Hu & _ & _).
    rewrite Hu, Hc, IH.
    replace (S k + length cs)%nat with (k + S (length cs))%nat by lia. reflexivity.
Qed.

(** X4: on a payload made of one or more hexadecimal digits, the fuel trim
    cell decoder returns their positional value in base 16, whatever its
    size: the decoder does not bound the cell number. *)
Theorem fuel_trim_cell_decode (data : string) (ds : list Z) :
  data <> EmptyString ->
  Forall2 (fun c d => hex_digit c = Some d) (list_ascii_of_string data) ds ->
  custom_decode "FUEL_TRIM_CELL" data = Returned (PyInt (hex_value ds)) /\
  0 <= hex_value ds < 16 ^ Z.of_nat (String.length data).
Proof.
  intros Hne Hall.
  assert (int16 data = Returned (hex_value ds)) as Hint.
  { unfold int16, hex_value.
    destruct (list_ascii_of_string data) as [|c cs] eqn:Hcs.
    { destruct data; [contradiction | discriminate Hcs]. }
    pose proof Hall as Hall'.
    inversion Hall as [|c' d cs' ds' Hc Hrest]; subst.
    destruct (hex_digit_plain _ _ Hc) as (Hs & Hp & Hm & Hu & _ & _).
    cbn [skip_space]. rewrite Hs, Hp, Hm.
    assert (match cs with
            | [] => c :: cs
            | x :: r =>
                if is_char 48 c && (is_char 120 x || is_char 88 x)
                then match r with
                     | [] => r
                     | u :: r' => if is_char 95 u then r' else r
                     end
                else c :: cs
            end = c :: cs) as ->.
    { destruct cs as [|x r]; [reflexivity|].
      inversion Hrest as [|x' dx r' dr Hx _]; subst.
      destruct (hex_digit_plain _ _ Hx) as (_ & _ & _ & _ & Hx1 & Hx2).
      rewrite Hx1, Hx2, andb_false_r. reflexivity. }
    rewrite Hu, (scan_digits_all_hex _ _ Hall' 0 0%nat).
    cbn [length Nat.add skip_space]. reflexivity. }
  split.
  - change (custom_decode "FUEL_TRIM_CELL" data) with (decode_fuel_trim_cell data).
    unfold decode_fuel_trim_cell. rewrite Hint. reflexivity.
  - rewrite <- length_list_ascii_of_string.
    unfold hex_value. clear Hint Hne.
    assert (forall acc, 0 <= acc ->
              acc <= fold_left (fun a d => 16 * a + d) ds acc
              < (acc + 1) * 16 ^ Z.of_nat (length (list_ascii_of_string data))) as Hb.
    { intros acc Hacc.
      apply (scan_digits_bound (list_ascii_of_string data) false acc 0%nat
               _ (0 + length (list_ascii_of_string data))%nat [] Hacc).
      apply (scan_digits_all_hex _ _ Hall). }
    specialize (Hb 0 (Z.le_refl 0)). lia.
Qed.

Lemma fuel_trim_cell_decode_witness :
  custom_decode "FUEL_TRIM_CELL" "ff" = Returned (PyInt (hex_value [15; 15])) /\
  0 <= hex_value [15; 15] < 16 ^ Z.of_nat (String.length "ff").
Proof.
  apply (fuel_trim_cell_decode "ff" [15; 15]).
  - discriminate.
  - repeat constructor.
Defined.

(** One monitoring cycle prints each message exactly under its condition,
    on a snapshot whose bank angles are floats. *)
Lemma check_vvt_on_floats (data : snapshot) (vvt_errors : Z) (s : state)
    (rpm : pyval) (f1 f2 : float) :
  assoc "rpm" data = Some rpm ->
  assoc "vvt_bank1" data = Some (PyFloat f1) ->
  assoc "vvt_bank2" data = Some (PyFloat f2) ->
  misalignment_flagged (printed (check_vvt data vvt_errors) s)
    = exceeds_threshold (PyFloat f1) (PyFloat f2) /\
  stuck_flagged (printed (check_vvt data vvt_errors) s)
    = stuck_condition rpm (PyFloat f1).
Proof.
  intros Hr H1 H2.
  destruct (check_misalignment_present data vvt_errors s _ _ H1 H2
              ltac:(discriminate) ltac:(discriminate))
    as (r & l & s1 & E & Hc & Hm & Hs & _).
  destruct (check_misalignment_returns data vvt_errors s _ _ H1 H2 I I)
    as (n & l' & s1' & E' & _ & _).
  rewrite E in E'. injection E' as -> _.
  destruct (check_stuck_flag data s1 rpm _ Hr H1) as (l2 & Hc2 & Hs2).
  destruct (check_stuck_console data s1) as (l3 & Hc3 & Hm3 & _).
  rewrite Hc2 in Hc3. apply app_inv_head in Hc3. subst l3.
  assert (printed (check_vvt data vvt_errors) s = (l ++ l2)%list) as ->.
  { apply printed_app. unfold check_vvt, bind at 1. rewrite E. unfold bind.
    destruct (check_stuck data s1) as [[u|e] s2]; cbn [snd ret] in *;
      rewrite Hc2, Hc, app_assoc; reflexivity. }
  rewrite misalignment_flagged_app, stuck_flagged_app, Hm, Hm3, Hs, Hs2.
  split; [apply orb_false_r | reflexivity].
Qed.

(** X5: the module's own decoders keep the monitor silent.  Whatever the
    two payloads and the engine speed, if both bank angles are what the VVT
    decoder returned, one monitoring cycle prints neither the misalignment
    nor the stuck-solenoid message: two decoded angles differ by less than
    2.2 degrees and each is below -48. *)
Theorem checks_never_fire_on_decoded_angles (data1 data2 : string) (f1 f2 : float)
    (rpm : pyval) (vvt_errors : Z) (s : state) :
  decode_vvt_angle data1 = Returned (PyFloat f1) ->
  decode_vvt_angle data2 = Returned (PyFloat f2) ->
  exceeds_threshold (PyFloat f1) (PyFloat f2) = false /\
  stuck_condition rpm (PyFloat f1) = false /\
  misalignment_flagged
    (printed (check_vvt (snapshot_of rpm (PyFloat f1) (PyFloat f2)) vvt_errors) s)
    = false /\
  stuck_flagged
    (printed (check_vvt (snapshot_of rpm (PyFloat f1) (PyFloat f2)) vvt_errors) s)
    = false.
Proof.
  intros D1 D2.
  destruct (decode_vvt_angle_returned _ _ D1) as (n1 & _ & _ & _ & In1).
  destruct (decode_vvt_angle_returned _ _ D2) as (n2 & _ & _ & _ & In2).
  pose proof (proj1 (forallb_forall _ _) checks_silent_on_vvt_angles f1 In1) as C.
  apply andb_prop in C. destruct C as [Cs Cm].
  pose proof (proj1 (forallb_forall _ _) Cm f2 In2) as Cm'.
  apply negb_true_iff in Cs, Cm'.
  assert (stuck_condition rpm (PyFloat f1) = false) as Hstuck.
  { unfold stuck_condition. destruct (py_gt rpm (PyInt 3000)) as [[|]|]; try reflexivity.
    cbn [py_abs py_lt]. exact Cs. }
  split; [exact Cm'|]. split; [exact Hstuck|].
  destruct (check_vvt_on_floats (snapshot_of rpm (PyFloat f1) (PyFloat f2))
              vvt_errors s rpm f1 f2 eq_refl eq_refl eq_refl) as [-> ->].
  split; assumption.
Qed.

Lemma checks_never_fire_on_decoded_angles_witness :
  exceeds_threshold (PyFloat (-50)) (PyFloat (-48.0078125)) = false /\
  stuck_condition (PyFloat 3500) (PyFloat (-50)) = false /\
  misalignment_flagged
    (printed (check_vvt (snapshot_of (PyFloat 3500) (PyFloat (-50))
                                     (PyFloat (-48.0078125))) 0) initial_state)
    = false /\
  stuck_flagged
    (printed (check_vvt (snapshot_of (PyFloat 3500) (PyFloat (-50))
                                     (PyFloat (-48.0078125))) 0) initial_state)
    = false.
Proof.
  apply (checks_never_fire_on_decoded_angles "6200" "62ff");
    vm_compute; reflexivity.
Defined.

(* ===================================================================== *)
(** ** Further properties of the connection and the registration *)
(* ===================================================================== *)

(** X6: [connect_obd] leaves a connection in the object only when
    [obd.OBD()] returned a handle whose [is_connected()] answered [True], and
    then prints the success message; every [Exception] on the way gives an
    object without a connection and one failure message; only an exception
    that is not an [Exception] leaves the method.  Nothing is queried,
    registered or written. *)
Theorem connect_obd_outcomes (G : list string) (W : world)
    (self : Toyota2GRDiagnostics) (s : state) :
  files (snd (connect_obd G W self s)) = files s /\
  sent (snd (connect_obd G W self s)) = sent s /\
  registered (snd (connect_obd G W self s)) = registered s /\
  match fst (connect_obd G W self s) with
  | Returned self' =>
      (exists h, connection self' = Some h /\ OBD W = Returned h /\
                 is_connected h = Returned true /\
                 console (snd (connect_obd G W self s))
                 = (console s ++ [Connected])%list) \/
      (exists e, connection self' = None /\ is_Exception e = true /\
                 console (snd (connect_obd G W self s))
                 = (console s ++ [ConnectionFailed e])%list)
  | Raised e =>
      is_Exception e = false /\
      console (snd (connect_obd G W self s)) = console s
  end.
Proof.
  unfold connect_obd, try_except, bind, load_global, lift, raise, print, ret.
  destruct (existsb (String.eqb "obd") G); cbn [fst snd is_Exception].
  - destruct (OBD W) as [h|e] eqn:Ho; cbn [fst snd].
    + destruct (is_connected h) as [[|]|e] eqn:Hc; cbn [fst snd negb is_Exception].
      * repeat split. left. exists h. repeat split; assumption.
      * repeat split. right.
        exists (ConnectionError "Failed to connect to OBD-II"). repeat split.
      * destruct (is_Exception e) eqn:He; cbn [fst snd files sent registered console].
        -- repeat split. right. exists e. repeat split; assumption.
        -- repeat split; assumption.
    + destruct (is_Exception e) eqn:He; cbn [fst snd files sent registered console].
      * repeat split. right. exists e. repeat split; assumption.
      * repeat split; assumption.
  - repeat split. right. exists (NameError "obd"). repeat split.
Qed.

(** X7: with a connection, [register_custom_pids] hands the four table
    entries to [add_command] in table order, each as the command built from
    its entry, and changes nothing else. *)
Theorem register_custom_pids_registers_table (G : list string) (W : world)
    (h : handle) (s : state) :
  In "obd" G -> In "CUSTOM_PIDS" G ->
  (forall entry, In entry CUSTOM_PIDS -> add_command W (table_command entry) = Returned tt) ->
  register_custom_pids G W (mkDiag (Some h)) s
  = (Returned tt,
     mkState (ticks s) (sent s)
             (registered s ++ ["VVT_ANGLE_BANK1"; "VVT_ANGLE_BANK2";
                               "FUEL_TRIM_CELL"; "AF_CORRECTION"])
             (console s) (slept s) (files s)).
Proof.
  intros Ho Hc Ha.
  unfold register_custom_pids, load_global. cbn [connection].
  rewrite (bound_name _ _ Hc).
  unfold bind at 1. unfold ret at 1.
  cbn [CUSTOM_PIDS for_each register_one]. unfold load_global.
  rewrite (bound_name _ _ Ho).
  pose proof (Ha _ (or_introl eq_refl)) as A1.
  pose proof (Ha _ (or_intror (or_introl eq_refl))) as A2.
  pose proof (Ha _ (or_intror (or_intror (or_introl eq_refl)))) as A3.
  pose proof (Ha _ (or_intror (or_intror (or_intror (or_introl eq_refl))))) as A4.
  unfold table_command in A1, A2, A3, A4.
  cbn [fst snd command bytes decode] in A1, A2, A3, A4.
  unfold bind, ret.
  cbn [ticks sent registered console slept files command bytes decode].
  rewrite A1. cbn [ticks sent registered console slept files].
  rewrite A2. cbn [ticks sent registered console slept files].
  rewrite A3. cbn [ticks sent registered console slept files].
  rewrite A4. cbn [ticks sent registered console slept files].
  rewrite <- !app_assoc. reflexivity.
Qed.

Lemma register_custom_pids_registers_table_witness :
  register_custom_pids module_globals live_world live_diag initial_state
  = (Returned tt,
     mkState 0 [] ["VVT_ANGLE_BANK1"; "VVT_ANGLE_BANK2";
                   "FUEL_TRIM_CELL"; "AF_CORRECTION"] [] [] ∅).
Proof.
  apply (register_custom_pids_registers_table module_globals live_world
           live_handle initial_state).
  - cbn. tauto.
  - cbn. tauto.
  - intros entry _. reflexivity.
Defined.

(** X8: [__init__] has no handler around [register_custom_pids]: when
    [add_command] raises on any of the four table commands, the exception
    leaves the constructor and no object is made. *)
Theorem registration_failure_escapes_constructor (G : list string) (W : world)
    (h : handle) (s : state) (entry : string * pid_config) (e : exn) :
  In "obd" G -> In "CUSTOM_PIDS" G ->
  OBD W = Returned h -> is_connected h = Returned true ->
  In entry CUSTOM_PIDS -> add_command W (table_command entry) = Raised e ->
  exists (e' : exn) (s' : state), __init__ G W s = (Raised e', s').
Proof.
  intros Ho Hc Hh Hconn Hin He.
  unfold __init__, connect_obd, register_custom_pids, try_except, bind,
    load_global, lift, print, ret, raise.
  rewrite (bound_name _ _ Ho), Hh, Hconn. cbn [negb connection].
  rewrite (bound_name _ _ Hc).
  cbn [CUSTOM_PIDS for_each register_one]. unfold bind, load_global, ret.
  rewrite (bound_name _ _ Ho).
  cbn [ticks sent registered console slept files command bytes decode].
  unfold table_command in He.
  repeat match goal with
    | |- context [add_command W ?c] =>
        destruct (add_command W c) as [[]|?] eqn:?; [|eauto];
        cbn [ticks sent registered console slept files]
    end.
  exfalso.
  destruct Hin as [<-|[<-|[<-|[<-|[]]]]]; cbn [fst snd command bytes decode] in He;
    congruence.
Qed.

Lemma registration_failure_escapes_constructor_witness :
  exists (e' : exn) (s' : state),
    __init__ module_globals
      (mkWorld (Returned live_handle) (fun _ => Raised AttributeError)
               custom_commands (fun _ => "") (fun _ => 0%float))
      initial_state = (Raised e', s').
Proof.
  apply (registration_failure_escapes_constructor module_globals
           (mkWorld (Returned live_handle) (fun _ => Raised AttributeError)
                    custom_commands (fun _ => "") (fun _ => 0%float))
           live_handle initial_state
           ("VVT_ANGLE_BANK1", mkPid "221160" 4 decode_vvt_angle) AttributeError).
  - cbn. tauto.
  - cbn. tauto.
  - reflexivity.
  - reflexivity.
  - left. reflexivity.
  - reflexivity.
Defined.

(* ===================================================================== *)
(** ** Further properties of the sampler *)
(* ===================================================================== *)

Section Polling.

Context {A B : Type}.

Lemma polls_only_ret (a : A) : polls_only (ret a).
Proof. intros s. repeat split. exists []. now rewrite app_nil_r. Qed.

Lemma polls_only_raise (e : exn) : polls_only (@raise A e).
Proof. intros s. repeat split. exists []. now rewrite app_nil_r. Qed.

Lemma polls_only_lift (r : result A) : polls_only (lift r).
Proof. intros s. repeat split. exists []. now rewrite app_nil_r. Qed.

Lemma polls_only_consult (ask : nat -> result A) (log : list string) :
  polls_only (consult ask log).
Proof. intros s. repeat split. exists log. reflexivity. Qed.

Lemma polls_only_bind (m : M A) (k : A -> M B) :
  polls_only m -> (forall a, polls_only (k a)) -> polls_only (bind m k).
Proof.
  intros Hm Hk s. unfold bind. specialize (Hm s).
  destruct (m s) as [[a | e] s1]; cbn [snd] in Hm; [|exact Hm].
  destruct Hm as (Hf & Hc & Hr & Hs & l1 & Hl).
  destruct (Hk a s1) as (Hf' & Hc' & Hr' & Hs' & l2 & Hl').
  rewrite Hf', Hc', Hr', Hs', Hl', Hl. repeat split; try assumption.
  exists (l1 ++ l2)%list. now rewrite app_assoc.
Qed.

Lemma polls_only_try_except (body : M A) (catches : exn -> bool)
    (handler : exn -> M A) :
  polls_only body -> (forall e, polls_only (handler e)) ->
  polls_only (try_except body catches handler).
Proof.
  intros Hb Hh s. unfold try_except. specialize (Hb s).
  destruct (body s) as [[a | e] s1]; cbn [snd] in Hb; [exact Hb|].
  destruct (catches e); [|exact Hb].
  destruct Hb as (Hf & Hc & Hr & Hs & l1 & Hl).
  destruct (Hh e s1) as (Hf' & Hc' & Hr' & Hs' & l2 & Hl').
  rewrite Hf', Hc', Hr', Hs', Hl', Hl. repeat split; try assumption.
  exists (l1 ++ l2)%list. now rewrite app_assoc.
Qed.

End Polling.

Lemma polls_only_load_global (G : list string) (name : string) :
  polls_only (load_global G name).
Proof.
  unfold load_global.
  destruct (existsb _ G); [apply polls_only_ret | apply polls_only_raise].
Qed.

Create HintDb polls.

#[local] Hint Resolve polls_only_ret polls_only_raise polls_only_lift
  polls_only_consult polls_only_load_global : polls.

Ltac polls_steps :=
  repeat first
    [ solve [ auto with polls ]
    | apply polls_only_bind; [| intros ? ]
    | apply polls_only_try_except; [| intros ? ] ].

Lemma polls_only_get_standard_pid (h : handle) (cmd : std_command) :
  polls_only (_get_standard_pid h cmd).
Proof.
  unfold _get_standard_pid. apply polls_only_bind; [apply polls_only_consult|].
  intros [q|]; [|apply polls_only_ret].
  apply polls_only_bind; [apply polls_only_lift|]. intros []; apply polls_only_ret.
Qed.

Lemma polls_only_get_custom_pid (G : list string) (W : world) (h : handle)
    (name : string) :
  polls_only (_get_custom_pid G W h name).
Proof. unfold _get_custom_pid. polls_steps. Qed.

#[local] Hint Resolve polls_only_get_standard_pid polls_only_get_custom_pid : polls.

(** X9: sampling only consults the outside world: whatever the
    connection answers, and whether the call returns or raises, it prints
    nothing, writes no file, registers nothing and never sleeps; the query
    log only grows. *)
Theorem sampling_only_polls (G : list string) (W : world)
    (self : Toyota2GRDiagnostics) (s : state) :
  files (snd (get_2gr_specific_data G W self s)) = files s /\
  console (snd (get_2gr_specific_data G W self s)) = console s /\
  registered (snd (get_2gr_specific_data G W self s)) = registered s /\
  slept (snd (get_2gr_specific_data G W self s)) = slept s /\
  exists l, sent (snd (get_2gr_specific_data G W self s)) = (sent s ++ l)%list.
Proof.
  revert s. change (polls_only (get_2gr_specific_data G W self)).
  unfold get_2gr_specific_data, std. destruct (connection self); polls_steps.
Qed.

Lemma load_global_inv (G : list string) (name : string) (s s' : state) (u : unit) :
  load_global G name s = (Returned u, s') ->
  s' = s /\ existsb (String.eqb name) G = true.
Proof.
  unfold load_global, ret, raise.
  destruct (existsb _ G); intros H; [|discriminate H].
  injection H as _ <-. split; reflexivity.
Qed.

Lemma std_inv (G : list string) (c c' : std_command) (s s' : state) :
  std G c s = (Returned c', s') ->
  c' = c /\ s' = s /\ existsb (String.eqb "obd") G = true.
Proof.
  unfold std, bind, load_global, ret, raise.
  destruct (existsb _ G); intros H; [|discriminate H].
  injection H as <- <-. repeat split.
Qed.

Lemma get_standard_pid_log (h : handle) (c : std_command) (s s' : state)
    (r : result pyval) :
  _get_standard_pid h c s = (r, s') ->
  sent s' = (sent s ++ [std_name c])%list /\ ticks s' = S (ticks s).
Proof.
  unfold _get_standard_pid, bind, consult, lift, ret.
  destruct (query_standard h (ticks s) c) as [[q|]|e].
  - destruct (truth q) as [[|]|e]; intros [= _ <-]; split; reflexivity.
  - intros [= _ <-]; split; reflexivity.
  - intros [= _ <-]; split; reflexivity.
Qed.

Lemma get_custom_pid_log (G : list string) (W : world) (h : handle)
    (name : string) (s s' : state) (r : result pyval) :
  existsb (String.eqb "obd") G = true ->
  _get_custom_pid G W h name s = (r, s') ->
  sent s' = (sent s ++ custom_sent W name)%list.
Proof.
  intros Ho. unfold _get_custom_pid, try_except, bind, load_global, lift,
    consult, ret, custom_sent.
  rewrite Ho.
  destruct (commands_getitem W name) as [cmd|e].
  - destruct (query_custom h (ticks s) cmd); intros [= _ <-]; reflexivity.
  - intros [= _ <-]. cbn [sent]. now rewrite app_nil_r.
Qed.

(** A successful sampling call, step by step. *)
Lemma sample_trace (G : list string) (W : world) (h : handle) (s s1 : state)
    (data : snapshot) :
  get_2gr_specific_data G W (mkDiag (Some h)) s = (Returned (Some data), s1) ->
  existsb (String.eqb "obd") G = true /\
  exists (rpm ct b1 b2 ftc af tp st lt : pyval) (sa sb sc sd se sf sg sh : state),
    _get_standard_pid h RPM
      (mkState (S (ticks s)) (sent s ++ []) (registered s) (console s)
               (slept s) (files s)) = (Returned rpm, sa) /\
    _get_standard_pid h COOLANT_TEMP sa = (Returned ct, sb) /\
    _get_custom_pid G W h "VVT_ANGLE_BANK1" sb = (Returned b1, sc) /\
    _get_custom_pid G W h "VVT_ANGLE_BANK2" sc = (Returned b2, sd) /\
    _get_custom_pid G W h "FUEL_TRIM_CELL" sd = (Returned ftc, se) /\
    _get_custom_pid G W h "AF_CORRECTION" se = (Returned af, sf) /\
    _get_standard_pid h THROTTLE_POS sf = (Returned tp, sg) /\
    _get_standard_pid h SHORT_FUEL_TRIM_1 sg = (Returned st, sh) /\
    _get_standard_pid h LONG_FUEL_TRIM_1 sh = (Returned lt, s1) /\
    data = [ ("timestamp", PyStr (strftime_now W (ticks s)));
             ("rpm", rpm); ("coolant_temp", ct);
             ("vvt_bank1", b1); ("vvt_bank2", b2);
             ("fuel_trim_cell", ftc); ("af_correction", af);
             ("throttle_pos", tp); ("short_term_ft", st);
             ("long_term_ft", lt) ].
Proof.
  intros H. unfold get_2gr_specific_data in H. cbn [connection] in H.
  run_in H.
  repeat match goal with
    | E : load_global _ _ _ = (Returned _, _) |- _ =>
        apply load_global_inv in E; destruct E as [-> ?]
    | E : std _ _ _ = (Returned _, _) |- _ =>
        apply std_inv in E; destruct E as (-> & -> & ?)
    | E : consult _ _ _ = (Returned _, _) |- _ =>
        unfold consult in E; injection E as <- <-
    end.
  unfold ret in H. injection H as <- <-.
  split; [assumption|].
  repeat eexists; eassumption.
Qed.

(** X10: a sampling call that returns has sent its queries in the order of
    the dict display: the two library commands, then each custom PID the
    library could look up (under the name of the command looked up), then
    the three remaining library commands; a custom PID that cannot be
    looked up sends nothing. *)
Theorem sample_query_order (G : list string) (W : world) (h : handle)
    (s : state) (data : snapshot) :
  fst (get_2gr_specific_data G W (mkDiag (Some h)) s) = Returned (Some data) ->
  sent (snd (get_2gr_specific_data G W (mkDiag (Some h)) s))
  = (sent s ++ ["RPM"; "COOLANT_TEMP"]
       ++ custom_sent W "VVT_ANGLE_BANK1" ++ custom_sent W "VVT_ANGLE_BANK2"
       ++ custom_sent W "FUEL_TRIM_CELL" ++ custom_sent W "AF_CORRECTION"
       ++ ["THROTTLE_POS"; "SHORT_FUEL_TRIM_1"; "LONG_FUEL_TRIM_1"])%list.
Proof.
  intros H.
  destruct (get_2gr_specific_data G W (mkDiag (Some h)) s) as [r s1] eqn:E.
  cbn [fst snd] in *. subst r.
  destruct (sample_trace _ _ _ _ _ _ E)
    as (Ho & rpm & ct & b1 & b2 & ftc & af & tp & st & lt
        & sa & sb & sc & sd & se & sf & sg & sh
        & E1 & E2 & E3 & E4 & E5 & E6 & E7 & E8 & E9 & _).
  apply get_standard_pid_log in E1, E2, E7, E8, E9.
  apply (get_custom_pid_log _ _ _ _ _ _ _ Ho) in E3, E4, E5, E6.
  destruct E1 as [E1 _], E2 as [E2 _], E7 as [E7 _], E8 as [E8 _], E9 as [E9 _].
  rewrite E9, E8, E7, E6, E5, E4, E3, E2, E1. cbn [sent std_name].
  rewrite app_nil_r, <- !app_assoc. reflexivity.
Qed.

Lemma sample_query_order_witness :
  sent (snd (get_2gr_specific_data module_globals live_world live_diag initial_state))
  = (sent initial_state ++ ["RPM"; "COOLANT_TEMP"]
       ++ custom_sent live_world "VVT_ANGLE_BANK1"
       ++ custom_sent live_world "VVT_ANGLE_BANK2"
       ++ custom_sent live_world "FUEL_TRIM_CELL"
       ++ custom_sent live_world "AF_CORRECTION"
       ++ ["THROTTLE_POS"; "SHORT_FUEL_TRIM_1"; "LONG_FUEL_TRIM_1"])%list.
Proof.
  eapply (sample_query_order module_globals live_world live_handle initial_state).
  vm_compute. reflexivity.
Defined.

Lemma get_custom_pid_value (G : list string) (W : world) (h : handle)
    (name : string) (s s' : state) (v : pyval) (e : exn) :
  commands_getitem W name = Raised e \/
  (exists cmd, commands_getitem W name = Returned cmd /\
               forall n, query_custom h n cmd = Raised e) ->
  _get_custom_pid G W h name s = (Returned v, s') -> v = PyNone.
Proof.
  intros Hf E.
  assert (fst (_get_custom_pid G W h name s) = Returned PyNone) as Hn.
  { apply (get_custom_pid_failure_is_None G W h name s e).
    destruct Hf as [Hf | (cmd & Hc & Hq)]; [left; exact Hf|].
    right. exists cmd. split; [exact Hc | apply Hq]. }
  rewrite E in Hn. cbn [fst] in Hn. now injection Hn.
Qed.

(** X11: a custom PID that the library cannot look up, or whose query
    raises, is stored as [None] under its key in every snapshot. *)
Theorem failed_custom_pid_is_None (G : list string) (W : world) (h : handle)
    (s : state) (data : snapshot) (key name : string) (e : exn) :
  In (key, name) custom_keys ->
  commands_getitem W name = Raised e \/
  (exists cmd, commands_getitem W name = Returned cmd /\
               forall n, query_custom h n cmd = Raised e) ->
  fst (get_2gr_specific_data G W (mkDiag (Some h)) s) = Returned (Some data) ->
  assoc key data = Some PyNone.
Proof.
  intros Hin Hf H.
  destruct (get_2gr_specific_data G W (mkDiag (Some h)) s) as [r s1] eqn:E.
  cbn [fst] in H. subst r.
  destruct (sample_trace _ _ _ _ _ _ E)
    as (Ho & rpm & ct & b1 & b2 & ftc & af & tp & st & lt
        & sa & sb & sc & sd & se & sf & sg & sh
        & E1 & E2 & E3 & E4 & E5 & E6 & E7 & E8 & E9 & ->).
  destruct Hin as [[= <- <-]|[[= <- <-]|[[= <- <-]|[[= <- <-]|[]]]]].
  - rewrite (get_custom_pid_value _ _ _ _ _ _ _ _ Hf E3). reflexivity.
  - rewrite (get_custom_pid_value _ _ _ _ _ _ _ _ Hf E4). reflexivity.
  - rewrite (get_custom_pid_value _ _ _ _ _ _ _ _ Hf E5). reflexivity.
  - rewrite (get_custom_pid_value _ _ _ _ _ _ _ _ Hf E6). reflexivity.
Qed.

Lemma failed_custom_pid_is_None_witness :
  assoc "vvt_bank1"
    [ ("timestamp", PyStr "2024-01-01 00:00:00"); ("rpm", PyFloat 3500);
      ("coolant_temp", PyFloat 3500); ("vvt_bank1", PyNone); ("vvt_bank2", PyNone);
      ("fuel_trim_cell", PyNone); ("af_correction", PyNone);
      ("throttle_pos", PyFloat 3500); ("short_term_ft", PyFloat 3500);
      ("long_term_ft", PyFloat 3500) ] = Some PyNone.
Proof.
  apply (failed_custom_pid_is_None module_globals bare_world live_handle
           initial_state _ "vvt_bank1" "VVT_ANGLE_BANK1" (KeyError "VVT_ANGLE_BANK1")).
  - left. reflexivity.
  - left. reflexivity.
  - vm_compute. reflexivity.
Defined.

Lemma get_standard_pid_value (h : handle) (c : std_command) (s s' : state)
    (v : pyval) (value : option quantity) :
  query_standard h (ticks s) c = Returned value ->
  _get_standard_pid h c s = (Returned v, s') -> v = stored_reading value.
Proof.
  intros Hq. unfold _get_standard_pid, bind, consult, lift, ret, stored_reading.
  rewrite Hq. destruct value as [q|].
  - destruct (truth q) as [[|]|e]; intros [= <- _]; reflexivity.
  - intros [= <- _]. reflexivity.
Qed.

(** X12: what a snapshot stores for a library command whose response
    value is [value]: the magnitude when the quantity is truthy, and [None]
    both when there is no value and when the quantity is falsy; a zero
    reading whose [bool()] is [False] is recorded as absent. *)
Theorem standard_reading_in_snapshot (G : list string) (W : world) (h : handle)
    (s : state) (data : snapshot) (c : std_command) (value : option quantity) :
  (forall n, query_standard h n c = Returned value) ->
  fst (get_2gr_specific_data G W (mkDiag (Some h)) s) = Returned (Some data) ->
  assoc (std_key c) data = Some (stored_reading value).
Proof.
  intros Hq H.
  destruct (get_2gr_specific_data G W (mkDiag (Some h)) s) as [r s1] eqn:E.
  cbn [fst] in H. subst r.
  destruct (sample_trace _ _ _ _ _ _ E)
    as (Ho & rpm & ct & b1 & b2 & ftc & af & tp & st & lt
        & sa & sb & sc & sd & se & sf & sg & sh
        & E1 & E2 & E3 & E4 & E5 & E6 & E7 & E8 & E9 & ->).
  destruct c; cbn [std_key].
  - rewrite (get_standard_pid_value _ _ _ _ _ _ (Hq _) E1). reflexivity.
  - rewrite (get_standard_pid_value _ _ _ _ _ _ (Hq _) E2). reflexivity.
  - rewrite (get_standard_pid_value _ _ _ _ _ _ (Hq _) E7). reflexivity.
  - rewrite (get_standard_pid_value _ _ _ _ _ _ (Hq _) E8). reflexivity.
  - rewrite (get_standard_pid_value _ _ _ _ _ _ (Hq _) E9). reflexivity.
Qed.

Lemma standard_reading_in_snapshot_witness :
  assoc (std_key RPM)
    [ ("timestamp", PyStr "2024-01-01 00:00:00"); ("rpm", PyNone);
      ("coolant_temp", PyNone); ("vvt_bank1", PyFloat (-49));
      ("vvt_bank2", PyFloat (-49)); ("fuel_trim_cell", PyInt 25216);
      ("af_correction", PyInt 0); ("throttle_pos", PyNone);
      ("short_term_ft", PyNone); ("long_term_ft", PyNone) ]
  = Some (stored_reading (Some (mkQuantity (PyFloat 0) (Returned false)))).
Proof.
  apply (standard_reading_in_snapshot module_globals live_world idle_handle
           initial_state _ RPM (Some (mkQuantity (PyFloat 0) (Returned false)))).
  - intros n. reflexivity.
  - vm_compute. reflexivity.
Defined.

(* ===================================================================== *)
(** ** Further properties of the logger and the monitor *)
(* ===================================================================== *)

(** X13: [log_to_csv] only ever appends to the one file it is given:
    whatever the namespace, the world and the outcome, it prints nothing,
    every other file is untouched, and the rows the file had are still
    there, in order, at its head. *)
Theorem log_to_csv_append_only (G : list string) (W : world)
    (self : Toyota2GRDiagnostics) (filename : string) (s : state) :
  console (snd (log_to_csv G W self filename s)) = console s /\
  (forall other : string, other <> filename ->
     files (snd (log_to_csv G W self filename s)) !! other = files s !! other) /\
  (forall rows : list (list pyval), files s !! filename = Some rows ->
     exists more : list (list pyval),
       files (snd (log_to_csv G W self filename s)) !! filename
       = Some (rows ++ more)%list).
Proof.
  pose proof (quiet_get_2gr_specific_data G W self s) as [Hf Hc].
  destruct (get_2gr_specific_data G W self s) as [[[data|]|e] s1] eqn:Hs;
    cbn [snd] in Hf, Hc.
  - rewrite (log_to_csv_after_sample _ _ _ filename _ _ _ Hs).
    destruct (existsb (String.eqb "os") G); cbn [negb].
    + destruct (existsb (String.eqb "csv") G); cbn [negb snd].
      * cbn [console files]. split; [exact Hc|]. split.
        -- intros other Hne. rewrite lookup_insert_ne by congruence.
           now rewrite Hf.
        -- intros rows Hrows. rewrite lookup_insert_eq, Hf, Hrows.
           unfold logged. cbn [default]. eexists. reflexivity.
      * unfold open_append. cbn [snd].
        destruct (files s1 !! filename) as [c|] eqn:Ef.
        -- split; [exact Hc|]. split.
           ++ intros other _. now rewrite Hf.
           ++ intros rows Hrows. exists []. now rewrite app_nil_r, Hf.
        -- cbn [console files]. split; [exact Hc|]. split.
           ++ intros other Hne. rewrite lookup_insert_ne by congruence.
              now rewrite Hf.
           ++ intros rows Hrows. rewrite <- Hf, Ef in Hrows. discriminate Hrows.
    + cbn [snd]. split; [exact Hc|]. split.
      * intros other _. now rewrite Hf.
      * intros rows Hrows. exists []. now rewrite app_nil_r, Hf.
  - rewrite (log_to_csv_no_snapshot _ _ _ filename _ _ Hs). cbn [snd].
    split; [exact Hc|]. split.
    + intros other _. now rewrite Hf.
    + intros rows Hrows. exists []. now rewrite app_nil_r, Hf.
  - rewrite (log_to_csv_sample_raised _ _ _ filename _ _ _ Hs). cbn [snd].
    split; [exact Hc|]. split.
    + intros other _. now rewrite Hf.
    + intros rows Hrows. exists []. now rewrite app_nil_r, Hf.
Qed.

(** X14: in the module as written (no [import os]) [log_to_csv] never
    returns [True] and never changes the file system, whatever the world
    and the object: it returns [False] without a snapshot and raises
    otherwise. *)
Theorem log_to_csv_as_written_never_writes (W : world)
    (self : Toyota2GRDiagnostics) (filename : string) (s : state) :
  fst (log_to_csv module_globals W self filename s) <> Returned true /\
  files (snd (log_to_csv module_globals W self filename s)) = files s /\
  (forall (data : snapshot) (s1 : state),
     get_2gr_specific_data module_globals W self s = (Returned (Some data), s1) ->
     fst (log_to_csv module_globals W self filename s) = Raised (NameError "os")).
Proof.
  pose proof (quiet_get_2gr_specific_data module_globals W self s) as [Hf _].
  destruct (get_2gr_specific_data module_globals W self s)
    as [[[data|]|e] s1] eqn:Hs; cbn [snd] in Hf.
  - rewrite (log_to_csv_after_sample _ _ _ filename _ _ _ Hs).
    cbn [fst snd]. repeat split; try assumption. discriminate.
  - rewrite (log_to_csv_no_snapshot _ _ _ filename _ _ Hs).
    cbn [fst snd]. repeat split; try assumption; discriminate.
  - rewrite (log_to_csv_sample_raised _ _ _ filename _ _ _ Hs).
    cbn [fst snd]. repeat split; try assumption; discriminate.
Qed.

(** In the module as written (no [import time])
    [monitor_vvt_synchronization] raises [NameError] at its first statement,
    for every world, object and duration, before any query, message or
    sleep. *)
Lemma monitor_as_written_raises (W : world) (self : Toyota2GRDiagnostics)
    (duration : pyval) (fuel : nat) (s : state) :
  monitor_vvt_synchronization module_globals W self duration fuel s
  = (Raised (NameError "time"), s).
Proof. reflexivity. Qed.

Lemma count_misalignment_app (l1 l2 : list output) :
  count_misalignment (l1 ++ l2) = count_misalignment l1 + count_misalignment l2.
Proof.
  unfold count_misalignment. rewrite List.filter_app, length_app. lia.
Qed.

(** Case analysis on the innermost scrutinee of the goal. *)
Ltac destruct_innermost :=
  match goal with
  | |- context [match ?x with _ => _ end] =>
      lazymatch x with
      | context [match _ with _ => _ end] => fail
      | _ => destruct x
      end
  end.

(** One monitoring cycle only prints, and counts what it prints. *)
Lemma check_vvt_counts (data : snapshot) (n : Z) (s s' : state) (r : result Z) :
  check_vvt data n s = (r, s') ->
  exists l : list output,
    console s' = (console s ++ l)%list /\
    sent s' = sent s /\ slept s' = slept s /\ files s' = files s /\
    forall n', r = Returned n' -> n' = n + count_misalignment l.
Proof.
  unfold check_vvt, check_misalignment, check_stuck, bind, getitem, lift,
    ret, raise, print.
  repeat destruct_innermost;
    intros H; injection H as <- <-; cbn [console sent slept files];
    first
      [ exists []; split; [now rewrite app_nil_r|]
      | eexists [_]; split; [reflexivity|]
      | eexists [_; _]; split; [now rewrite <- app_assoc|] ];
    repeat split; intros n' [= <-]; unfold count_misalignment; cbn; lia.
Qed.

Lemma time_now_frame (G : list string) (W : world) (s s' : state) (r : result pyval) :
  time_now G W s = (r, s') ->
  console s' = console s /\ sent s' = (sent s ++ [])%list /\
  slept s' = slept s /\ files s' = files s.
Proof.
  unfold time_now, bind, load_global, consult, ret, raise.
  destruct (existsb _ G); intros [= _ <-]; repeat split.
  cbn [sent]. now rewrite app_nil_r.
Qed.

Lemma sleep_frame (G : list string) (seconds : Z) (s s' : state) (r : result unit) :
  sleep G seconds s = (r, s') ->
  console s' = console s /\ sent s' = sent s /\ files s' = files s.
Proof.
  unfold sleep, bind, load_global, ret, raise.
  destruct (existsb _ G); intros [= _ <-]; repeat split.
Qed.

(** The loop returns a counter that went up by the number of misalignment
    messages it printed. *)
Lemma monitor_loop_counts (G : list string) (W : world)
    (self : Toyota2GRDiagnostics) (start_time duration : pyval) (fuel : nat) :
  forall (n : Z) (s s' : state) (m : Z),
    monitor_loop G W self start_time duration fuel n s = (Returned (Some m), s') ->
    exists l : list output,
      console s' = (console s ++ l)%list /\ m = n + count_misalignment l.
Proof.
  induction fuel as [|fuel IH]; intros n s s' m H; cbn [monitor_loop] in H.
  - discriminate H.
  - unfold bind at 1 in H.
    destruct (time_now G W s) as [[now|e] s1] eqn:Et; [|discriminate H].
    apply time_now_frame in Et. destruct Et as (Hc1 & _).
    unfold bind at 1 in H. unfold lift at 1 in H.
    destruct (py_sub now start_time) as [elapsed|e]; [|discriminate H].
    unfold bind at 1 in H. unfold lift at 1 in H.
    destruct (py_lt elapsed duration) as [[|]|e]; [| |discriminate H].
    + unfold bind at 1 in H.
      pose proof (quiet_get_2gr_specific_data G W self s1) as [_ Hc2].
      destruct (get_2gr_specific_data G W self s1) as [[[data|]|e] s2];
        cbn [snd] in Hc2; [| |discriminate H].
      * destruct data as [|entry data].
        { destruct (IH _ _ _ _ H) as (l & Hl & Hm).
          exists l. rewrite Hl, Hc2, Hc1. split; [reflexivity | exact Hm]. }
        unfold bind at 1 in H.
        destruct (check_vvt (entry :: data) n s2) as [[n2|e] s3] eqn:Ev;
          [|discriminate H].
        destruct (check_vvt_counts _ _ _ _ _ Ev) as (l1 & Hl1 & _ & _ & _ & Hn).
        specialize (Hn n2 eq_refl).
        unfold bind at 1 in H.
        destruct (sleep G 1 s3) as [[u|e] s4] eqn:Es; [|discriminate H].
        apply sleep_frame in Es. destruct Es as (Hc4 & _).
        destruct (IH _ _ _ _ H) as (l & Hl & Hm).
        exists (l1 ++ l)%list.
        rewrite Hl, Hc4, Hl1, Hc2, Hc1, count_misalignment_app, app_assoc.
        split; [reflexivity | lia].
      * destruct (IH _ _ _ _ H) as (l & Hl & Hm).
        exists l. rewrite Hl, Hc2, Hc1. split; [reflexivity | exact Hm].
    + unfold ret in H. injection H as <- <-.
      exists []. rewrite app_nil_r.
      split; [exact Hc1 | unfold count_misalignment; cbn; lia].
Qed.

(** X15: whenever [monitor_vvt_synchronization] completes, the error count
    in its closing message is the number of misalignment messages it
    printed during the run, and the closing message is the last thing
    printed. *)
Theorem monitor_reports_what_it_printed (G : list string) (W : world)
    (self : Toyota2GRDiagnostics) (duration : pyval) (fuel : nat) (s s' : state) :
  monitor_vvt_synchronization G W self duration fuel s = (Returned (Some tt), s') ->
  exists l : list output,
    console s'
    = (console s ++ l ++ [MonitoringComplete (count_misalignment l)])%list.
Proof.
  intros H. unfold monitor_vvt_synchronization in H.
  unfold bind at 1 in H.
  destruct (time_now G W s) as [[start|e] s1] eqn:Et; [|discriminate H].
  apply time_now_frame in Et. destruct Et as (Hc1 & _).
  unfold bind at 1 in H.
  destruct (monitor_loop G W self start duration fuel 0 s1)
    as [[[m|]|e] s2] eqn:El; try discriminate H.
  destruct (monitor_loop_counts _ _ _ _ _ _ _ _ _ _ El) as (l & Hl & Hm).
  unfold bind, print, ret in H. injection H as <-.
  exists l. cbn [console]. rewrite Hl, Hc1, Hm, <- app_assoc. reflexivity.
Qed.

Lemma monitor_reports_what_it_printed_witness :
  exists l : list output,
    console (snd (monitor_vvt_synchronization globals_with_os_and_time skewed_world
                    (mkDiag (Some skewed_handle)) (PyInt 20) 5 initial_state))
    = (console initial_state ++ l
         ++ [MonitoringComplete (count_misalignment l)])%list.
Proof.
  apply (monitor_reports_what_it_printed globals_with_os_and_time skewed_world
           (mkDiag (Some skewed_handle)) (PyInt 20) 5 initial_state).
  vm_compute. reflexivity.
Defined.

(** Two cycles on the skewed vehicle: two messages, and a count of two. *)
Example monitor_on_skewed_vehicle :
  console (snd (monitor_vvt_synchronization globals_with_os_and_time skewed_world
                  (mkDiag (Some skewed_handle)) (PyInt 20) 5 initial_state))
  = [Misalignment (PyFloat 6); Misalignment (PyFloat 6); MonitoringComplete 2].
Proof. vm_compute. reflexivity. Qed.

(** The logging loop has no way out but an exception. *)
Lemma logging_loop_never_returns (G : list string) (W : world)
    (diag : Toyota2GRDiagnostics) (fuel : nat) :
  forall s : state, fst (logging_loop G W diag fuel s) <> Returned (Some tt).
Proof.
  induction fuel as [|fuel IH]; intros s; cbn [logging_loop].
  - discriminate.
  - unfold bind at 1.
    destruct (log_to_csv G W diag "2gr_log.csv" s) as [[b|e] s1]; [|discriminate].
    unfold bind at 1.
    destruct (sleep G 5 s1) as [[u|e] s2]; [|discriminate].
    apply IH.
Qed.

(** X16: the main block ends normally only in the disabled state: if it
    returns, the constructor returned an object without a connection and
    nothing else ran; with a connection the block ends by an exception or
    not at all, since the logging loop has no exit. *)
Theorem main_returns_only_when_disabled (G : list string) (W : world)
    (fuel : nat) (s s' : state) :
  main G W fuel s = (Returned (Some tt), s') ->
  __init__ G W s = (Returned (mkDiag None), s').
Proof.
  unfold main. intros H. unfold bind at 1 in H.
  destruct (load_global G "Toyota2GRDiagnostics" s) as [[u|e] s0] eqn:El;
    [|discriminate H].
  apply load_global_inv in El. destruct El as [-> _].
  unfold bind at 1 in H.
  destruct (__init__ G W s) as [[[[h|]]|e] s1]; [| |discriminate H];
    cbn [connection] in H.
  - exfalso. unfold bind at 1 in H.
    destruct (monitor_vvt_synchronization G W _ (PyInt 60) fuel s1)
      as [[[u'|]|e] s2]; try discriminate H.
    apply (logging_loop_never_returns G W (mkDiag (Some h)) fuel s2).
    rewrite H. reflexivity.
  - unfold ret in H. injection H as <-. reflexivity.
Qed.

Lemma main_returns_only_when_disabled_witness :
  __init__ module_globals dead_world initial_state
  = (Returned (mkDiag None),
     with_output initial_state (ConnectionFailed (LibraryError "no adapter found"))).
Proof.
  apply (main_returns_only_when_disabled module_globals dead_world 5 initial_state).
  vm_compute. reflexivity.
Defined.

(** Without a connection the loop never samples and never sleeps. *)
Lemma monitor_loop_disabled (G : list string) (W : world)
    (start_time duration : pyval) (fuel : nat) :
  forall (n : Z) (s s' : state) (r : result (option Z)),
    monitor_loop G W (mkDiag None) start_time duration fuel n s = (r, s') ->
    slept s' = slept s /\ sent s' = sent s /\
    files s' = files s /\ console s' = console s /\
    forall m, r = Returned (Some m) -> m = n.
Proof.
  induction fuel as [|fuel IH]; intros n s s' r H; cbn [monitor_loop] in H.
  - unfold ret in H. injection H as <- <-. repeat split. intros m H; discriminate H.
  - unfold bind at 1 in H.
    destruct (time_now G W s) as [[now|e] s1] eqn:Et;
      apply time_now_frame in Et; destruct Et as (Hc & Hs & Hsl & Hf);
      rewrite app_nil_r in Hs.
    + unfold bind at 1 in H. unfold lift at 1 in H.
      destruct (py_sub now start_time) as [elapsed|e].
      * unfold bind at 1 in H. unfold lift at 1 in H.
        destruct (py_lt elapsed duration) as [[|]|e].
        -- unfold bind at 1 in H.
           cbn [get_2gr_specific_data connection] in H. unfold ret at 1 in H.
           destruct (IH _ _ _ _ H) as (I1 & I2 & I3 & I4 & I5).
           rewrite I1, I2, I3, I4, Hc, Hs, Hsl, Hf. repeat split. exact I5.
        -- unfold ret in H. injection H as <- <-.
           repeat split; try assumption. intros m [= <-]. reflexivity.
        -- injection H as <- <-. repeat split; try assumption.
           intros m H; discriminate H.
      * injection H as <- <-. repeat split; try assumption.
        intros m H; discriminate H.
    + injection H as <- <-. repeat split; try assumption.
      intros m H; discriminate H.
Qed.

(** X17: on an object without a connection the monitor never samples and
    never sleeps: each round of its loop goes straight back to the clock
    (the [continue] skips [time.sleep]), and when it completes it reports
    zero errors. *)
Theorem monitor_disabled_spins (G : list string) (W : world)
    (self : Toyota2GRDiagnostics) (duration : pyval) (fuel : nat) (s : state) :
  connection self = None ->
  slept (snd (monitor_vvt_synchronization G W self duration fuel s)) = slept s /\
  sent (snd (monitor_vvt_synchronization G W self duration fuel s)) = sent s /\
  files (snd (monitor_vvt_synchronization G W self duration fuel s)) = files s /\
  (fst (monitor_vvt_synchronization G W self duration fuel s) = Returned (Some tt) ->
   console (snd (monitor_vvt_synchronization G W self duration fuel s))
   = (console s ++ [MonitoringComplete 0])%list).
Proof.
  intros Hc. destruct self as [c]. cbn [connection] in Hc. subst c.
  destruct (monitor_vvt_synchronization G W (mkDiag None) duration fuel s)
    as [r s'] eqn:H.
  cbn [fst snd]. unfold monitor_vvt_synchronization in H.
  unfold bind at 1 in H.
  destruct (time_now G W s) as [[start|e] s1] eqn:Et;
    apply time_now_frame in Et; destruct Et as (H1 & H2 & H3 & H4);
    rewrite app_nil_r in H2.
  - unfold bind at 1 in H.
    destruct (monitor_loop G W (mkDiag None) start duration fuel 0 s1)
      as [[[m|]|e] s2] eqn:El;
      destruct (monitor_loop_disabled _ _ _ _ _ _ _ _ _ El)
        as (L1 & L2 & L3 & L4 & L5).
    + unfold bind, print, ret in H. injection H as <- <-.
      cbn [slept sent files console].
      rewrite L1, L2, L3, L4, H1, H2, H3, H4, (L5 m eq_refl). repeat split.
    + unfold ret in H. injection H as <- <-.
      rewrite L1, L2, L3, H2, H3, H4. repeat split. intros E; discriminate E.
    + injection H as <- <-.
      rewrite L1, L2, L3, H2, H3, H4. repeat split. intros E; discriminate E.
  - injection H as <- <-. repeat split; try assumption. intros E; discriminate E.
Qed.

Lemma monitor_disabled_spins_witness :
  slept (snd (monitor_vvt_synchronization globals_with_os_and_time dead_world
                disabled_diag (PyInt 3) 10 initial_state)) = slept initial_state /\
  sent (snd (monitor_vvt_synchronization globals_with_os_and_time dead_world
               disabled_diag (PyInt 3) 10 initial_state)) = sent initial_state /\
  files (snd (monitor_vvt_synchronization globals_with_os_and_time dead_world
                disabled_diag (PyInt 3) 10 initial_state)) = files initial_state /\
  (fst (monitor_vvt_synchronization globals_with_os_and_time dead_world
          disabled_diag (PyInt 3) 10 initial_state) = Returned (Some tt) ->
   console (snd (monitor_vvt_synchronization globals_with_os_and_time dead_world
                   disabled_diag (PyInt 3) 10 initial_state))
   = (console initial_state ++ [MonitoringComplete 0])%list).
Proof.
  apply (monitor_disabled_spins globals_with_os_and_time dead_world disabled_diag
           (PyInt 3) 10 initial_state).
  reflexivity.
Defined.
